(** * Priority-queue analysis: the issue detector of [analysis.py]

    A shallow embedding of [detect_priority_issues] and of the constants it
    reads, followed by the properties of the detector.

    The detector is embedded twice. The first embedding takes the numeric
    columns as exact rationals; it carries the properties that do not depend
    on how numbers are computed. Module [Machine] takes them as numpy does,
    as 64-bit integers and binary64 numbers; it carries the properties of the
    two pairwise rules, whose product and difference are machine arithmetic.

    Conventions of the first embedding:
    - a [pd.DataFrame] is the list of its rows, in file order;
    - the numeric columns are exact rationals ([Q]);
    - a pandas statistic is [option Q], where [None] stands for NaN (what
      pandas returns on an empty column); every comparison with NaN is false;
    - the function runs in a small monad that threads the trace of the
      dataset-wide statistics evaluated so far and can raise [IndexError]. *)

From Stdlib Require Import String Ascii DecimalString.
From Stdlib Require DecimalNat DecimalFacts.
From Stdlib Require Import List ZArith QArith Qround Bool Lia Lqa.
From Stdlib Require Import Floats.SpecFloat.
Import ListNotations.

Local Open Scope Q_scope.

(** ** Constants *)

Definition PRIORITY_DIFFERENCE_THRESHOLD : Q := 0.05.
Definition TABLE_SIZE_RATIO_THRESHOLD : Q := 2.
Definition STARVATION_THRESHOLD_DAYS : Q := 2.
Definition CHANGE_RATIO_QUANTILE : Q := 0.75.

Definition LARGE_BLOCKING_SMALL_THRESHOLD : nat := 10.
Definition SMALL_BLOCKING_LARGE_THRESHOLD : nat := 10.
Definition STARVED_TABLES_THRESHOLD : nat := 5.
Definition HIGH_CHANGE_LOW_PRIORITY_THRESHOLD : nat := 5.

Definition SECONDS_PER_DAY : Q := 24 * 3600.

(** ** Data *)

Record Row : Type := mkRow
  { ID : Z;
    TableSize : Q;
    CalculatedPriority : Q;
    TimeSinceLastAnalyze : Q;
    ChangeRatio : Q }.

Definition DataFrame : Type := list Row.

(** [df['col']] *)
Definition column (f : Row -> Q) (df : DataFrame) : list Q := map f df.

(** Strict comparisons of numbers, as booleans. *)
Definition Qltb (x y : Q) : bool := negb (Qle_bool y x).
Definition Qgtb (x y : Q) : bool := Qltb y x.

(** A statistic may be NaN; [x < NaN] and [x > NaN] are [False]. *)
Definition Stat : Type := option Q.

Definition lt_stat (x : Q) (s : Stat) : bool :=
  match s with Some v => Qltb x v | None => false end.

Definition gt_stat (x : Q) (s : Stat) : bool :=
  match s with Some v => Qgtb x v | None => false end.

(** ** pandas statistics: [Series.median] and [Series.quantile] *)

Fixpoint insert_sorted (x : Q) (l : list Q) : list Q :=
  match l with
  | [] => [x]
  | y :: l' => if Qle_bool x y then x :: l else y :: insert_sorted x l'
  end.

Definition sort_values (l : list Q) : list Q :=
  fold_right insert_sorted [] l.

(** [Series.quantile(q)] with the default linear interpolation: the value at
    the fractional position [q * (n - 1)] of the sorted column. *)
Definition quantile (q : Q) (xs : list Q) : Stat :=
  match xs with
  | [] => None
  | _ :: _ =>
      let v := sort_values xs in
      let pos := q * inject_Z (Z.of_nat (length xs) - 1) in
      let lo := Z.to_nat (Qfloor pos) in
      let hi := Nat.min (S lo) (length xs - 1) in
      let frac := pos - inject_Z (Qfloor pos) in
      Some (nth lo v 0 + (nth hi v 0 - nth lo v 0) * frac)
  end.

(** [Series.median()]: the middle value of the sorted column, or the mean of
    the two middle values. *)
Definition median (xs : list Q) : Stat :=
  match xs with
  | [] => None
  | _ :: _ =>
      let v := sort_values xs in
      let n := length xs in
      if Nat.even n
      then Some ((nth (n / 2 - 1) v 0 + nth (n / 2) v 0) / 2)
      else Some (nth (n / 2) v 0)
  end.

(** ** The monad of the detector *)

(** The dataset-wide statistics a run asks pandas for, oldest first. *)
Inductive PandasCall : Type :=
  | SeriesMedian
  | SeriesQuantile.

Definition Trace : Type := list PandasCall.

(** [None] is an uncaught [IndexError]. *)
Definition M (A : Type) : Type := Trace -> option (A * Trace).

Definition ret {A} (a : A) : M A := fun t => Some (a, t).

Definition bind {A B} (m : M A) (k : A -> M B) : M B :=
  fun t => match m t with
           | Some (a, t') => k a t'
           | None => None
           end.

Definition raise {A} : M A := fun _ => None.

Notation "x <- m ;; k" := (bind m (fun x => k))
  (at level 61, m at next level, right associativity).

(** [df.iloc[i]] for [i >= 0]. *)
Definition iloc (df : DataFrame) (i : nat) : M Row :=
  match nth_error df i with
  | Some r => ret r
  | None => raise
  end.

(** [df['CalculatedPriority'].median()] *)
Definition priority_median (df : DataFrame) : M Stat :=
  fun t => Some (median (column CalculatedPriority df), t ++ [SeriesMedian]).

(** [df['ChangeRatio'].quantile(CHANGE_RATIO_QUANTILE)] *)
Definition change_ratio_quantile (df : DataFrame) : M Stat :=
  fun t => Some (quantile CHANGE_RATIO_QUANTILE (column ChangeRatio df),
                 t ++ [SeriesQuantile]).

(** Python's [a and b]: [b] is evaluated only when [a] is true. *)
Definition and_then (a : bool) (b : M bool) : M bool :=
  if a then b else ret false.

(** [range(n)] for a Python integer [n]; empty when [n <= 0]. *)
Definition range (n : Z) : list nat := seq 0 (Z.to_nat n).

(** [for i in idx: acc = body i acc] *)
Fixpoint for_each {A} (idx : list nat) (body : nat -> A -> M A) (acc : A) : M A :=
  match idx with
  | [] => ret acc
  | i :: rest => acc' <- body i acc ;; for_each rest body acc'
  end.

(** [len(df)] *)
Definition len {A} (l : list A) : Z := Z.of_nat (length l).

(** ** The detector *)

Definition PairEvidence : Type := (Z * Z * Q * Q)%type.
Definition RowEvidence : Type := (Z * Q * Q)%type.

(** The four evidence lists the loop appends to. *)
Record Lists : Type := mkLists
  { large_blocking_small : list PairEvidence;
    small_blocking_large : list PairEvidence;
    starved_tables : list RowEvidence;
    high_change_low_priority : list RowEvidence }.

Definition no_evidence : Lists := mkLists [] [] [] [].

(** The returned tuple. *)
Record Result : Type := mkResult
  { issues : list string;
    evidence : Lists }.

(** The two pairwise conditions (lines 59 and 63), in exact arithmetic;
    [Machine.large_blocks_small] and [Machine.small_blocks_large] have them in
    the arithmetic of numpy. *)
Definition large_blocks_small (current next_table : Row) : bool :=
  Qgtb (TableSize current) (TableSize next_table * TABLE_SIZE_RATIO_THRESHOLD)
  && Qgtb (CalculatedPriority current - CalculatedPriority next_table)
          PRIORITY_DIFFERENCE_THRESHOLD.

Definition small_blocks_large (current next_table : Row) : bool :=
  Qltb (TableSize current * TABLE_SIZE_RATIO_THRESHOLD) (TableSize next_table)
  && Qgtb (CalculatedPriority current - CalculatedPriority next_table)
          PRIORITY_DIFFERENCE_THRESHOLD.

Definition pair_evidence (current next_table : Row) : PairEvidence :=
  (ID current, ID next_table, TableSize current, TableSize next_table).

Definition starved_evidence (current : Row) : RowEvidence :=
  (ID current, TimeSinceLastAnalyze current, CalculatedPriority current).

Definition change_evidence (current : Row) : RowEvidence :=
  (ID current, ChangeRatio current, CalculatedPriority current).

(** The first operand of the starvation test (line 67). *)
Definition overdue (current : Row) : bool :=
  Qgtb (TimeSinceLastAnalyze current) (STARVATION_THRESHOLD_DAYS * SECONDS_PER_DAY).

(** One iteration of the loop at lines 55-72. *)
Definition loop_body (df : DataFrame) (i : nat) (a : Lists) : M Lists :=
  current <- iloc df i ;;
  next_table <- iloc df (i + 1) ;;
  let a1 :=
    if large_blocks_small current next_table
    then mkLists (large_blocking_small a ++ [pair_evidence current next_table])
                 (small_blocking_large a) (starved_tables a)
                 (high_change_low_priority a)
    else a in
  let a2 :=
    if small_blocks_large current next_table
    then mkLists (large_blocking_small a1)
                 (small_blocking_large a1 ++ [pair_evidence current next_table])
                 (starved_tables a1) (high_change_low_priority a1)
    else a1 in
  is_starved <-
    and_then (overdue current)
             (m <- priority_median df ;; ret (lt_stat (CalculatedPriority current) m)) ;;
  let a3 :=
    if is_starved
    then mkLists (large_blocking_small a2) (small_blocking_large a2)
                 (starved_tables a2 ++ [starved_evidence current])
                 (high_change_low_priority a2)
    else a2 in
  is_high_change <-
    (h <- change_ratio_quantile df ;;
     and_then (gt_stat (ChangeRatio current) h)
              (m <- priority_median df ;; ret (lt_stat (CalculatedPriority current) m))) ;;
  let a4 :=
    if is_high_change
    then mkLists (large_blocking_small a3) (small_blocking_large a3)
                 (starved_tables a3)
                 (high_change_low_priority a3 ++ [change_evidence current])
    else a3 in
  ret a4.

(** [f"{n}"] for a length. *)
Definition format_count (n : nat) : string :=
  NilZero.string_of_uint (Nat.to_uint n).

(** The four summary lines (lines 76, 79, 82 and 85). *)
Definition large_blocking_small_line (n : nat) : string :=
  ("Found " ++ format_count n
   ++ " instances where larger tables may be blocking smaller tables")%string.

Definition small_blocking_large_line (n : nat) : string :=
  ("Found " ++ format_count n
   ++ " instances where smaller tables may be blocking larger tables")%string.

Definition starved_tables_line (n : nat) : string :=
  ("Found " ++ format_count n ++ " instances of potential table starvation")%string.

Definition high_change_low_priority_line (n : nat) : string :=
  ("Found " ++ format_count n
   ++ " instances of tables with high change ratio but low priority")%string.

(** Lines 74-85: [issues] starts empty and gains at most one line per list. *)
Definition summarize (a : Lists) : list string :=
  let issues0 : list string := [] in
  let issues1 :=
    if (LARGE_BLOCKING_SMALL_THRESHOLD <? length (large_blocking_small a))%nat
    then issues0 ++ [large_blocking_small_line (length (large_blocking_small a))]
    else issues0 in
  let issues2 :=
    if (SMALL_BLOCKING_LARGE_THRESHOLD <? length (small_blocking_large a))%nat
    then issues1 ++ [small_blocking_large_line (length (small_blocking_large a))]
    else issues1 in
  let issues3 :=
    if (STARVED_TABLES_THRESHOLD <? length (starved_tables a))%nat
    then issues2 ++ [starved_tables_line (length (starved_tables a))]
    else issues2 in
  let issues4 :=
    if (HIGH_CHANGE_LOW_PRIORITY_THRESHOLD <? length (high_change_low_priority a))%nat
    then issues3 ++ [high_change_low_priority_line (length (high_change_low_priority a))]
    else issues3 in
  issues4.

(** [detect_priority_issues(df)] *)
Definition detect_priority_issues (df : DataFrame) : M Result :=
  a <- for_each (range (len df - 1)) (loop_body df) no_evidence ;;
  ret (mkResult (summarize a) a).

(** ** The two-phase formulation of the specification

    The statistics are computed once, before the scan; the scan then applies
    the four rules of the specification's table to every adjacent pair. *)

Definition scan_body (priority_median_value change_ratio_high : Stat)
    (df : DataFrame) (i : nat) (a : Lists) : M Lists :=
  current <- iloc df i ;;
  next_table <- iloc df (i + 1) ;;
  ret (mkLists
         (large_blocking_small a ++
            (if large_blocks_small current next_table
             then [pair_evidence current next_table] else []))
         (small_blocking_large a ++
            (if small_blocks_large current next_table
             then [pair_evidence current next_table] else []))
         (starved_tables a ++
            (if overdue current
                && lt_stat (CalculatedPriority current) priority_median_value
             then [starved_evidence current] else []))
         (high_change_low_priority a ++
            (if gt_stat (ChangeRatio current) change_ratio_high
                && lt_stat (CalculatedPriority current) priority_median_value
             then [change_evidence current] else []))).

Definition detect_priority_issues_two_phase (df : DataFrame) : M Result :=
  priority_median_value <- priority_median df ;;
  change_ratio_high <- change_ratio_quantile df ;;
  a <- for_each (range (len df - 1))
         (scan_body priority_median_value change_ratio_high df) no_evidence ;;
  ret (mkResult (summarize a) a).

(** ** The scan as a filter over the adjacent pairs *)

(** The pairs [(df[i], df[i+1])], in position order. *)
Definition adjacent_pairs (df : DataFrame) : list (Row * Row) :=
  combine df (tl df).

Definition is_starved (med : Stat) (current : Row) : bool :=
  overdue current && lt_stat (CalculatedPriority current) med.

Definition is_high_change (high med : Stat) (current : Row) : bool :=
  gt_stat (ChangeRatio current) high && lt_stat (CalculatedPriority current) med.

Definition lists_of (med high : Stat) (ps : list (Row * Row)) : Lists :=
  mkLists
    (map (fun p => pair_evidence (fst p) (snd p))
         (filter (fun p => large_blocks_small (fst p) (snd p)) ps))
    (map (fun p => pair_evidence (fst p) (snd p))
         (filter (fun p => small_blocks_large (fst p) (snd p)) ps))
    (map starved_evidence (filter (is_starved med) (map fst ps)))
    (map change_evidence (filter (is_high_change high med) (map fst ps))).

Definition add_lists (a b : Lists) : Lists :=
  mkLists (large_blocking_small a ++ large_blocking_small b)
          (small_blocking_large a ++ small_blocking_large b)
          (starved_tables a ++ starved_tables b)
          (high_change_low_priority a ++ high_change_low_priority b).

(** The statistics of a dataset. *)
Definition median_of (df : DataFrame) : Stat :=
  median (column CalculatedPriority df).

Definition high_of (df : DataFrame) : Stat :=
  quantile CHANGE_RATIO_QUANTILE (column ChangeRatio df).

(** What a run returns, as a function of the dataset. *)
Definition scan_lists (df : DataFrame) : Lists :=
  lists_of (median_of df) (high_of df) (adjacent_pairs df).

Definition expected_result (df : DataFrame) : Result :=
  mkResult (summarize (scan_lists df)) (scan_lists df).

(** ** The categories of the summary *)

Inductive Category : Type :=
  | LargeBlockingSmall
  | SmallBlockingLarge
  | StarvedTables
  | HighChangeLowPriority.

Definition threshold_of (c : Category) : nat :=
  match c with
  | LargeBlockingSmall => LARGE_BLOCKING_SMALL_THRESHOLD
  | SmallBlockingLarge => SMALL_BLOCKING_LARGE_THRESHOLD
  | StarvedTables => STARVED_TABLES_THRESHOLD
  | HighChangeLowPriority => HIGH_CHANGE_LOW_PRIORITY_THRESHOLD
  end.

Definition evidence_count (c : Category) (a : Lists) : nat :=
  match c with
  | LargeBlockingSmall => length (large_blocking_small a)
  | SmallBlockingLarge => length (small_blocking_large a)
  | StarvedTables => length (starved_tables a)
  | HighChangeLowPriority => length (high_change_low_priority a)
  end.

Definition line_of (c : Category) (n : nat) : string :=
  match c with
  | LargeBlockingSmall => large_blocking_small_line n
  | SmallBlockingLarge => small_blocking_large_line n
  | StarvedTables => starved_tables_line n
  | HighChangeLowPriority => high_change_low_priority_line n
  end.

(** The text after the count. *)
Definition line_tail (c : Category) : string :=
  match c with
  | LargeBlockingSmall =>
      " instances where larger tables may be blocking smaller tables"
  | SmallBlockingLarge =>
      " instances where smaller tables may be blocking larger tables"
  | StarvedTables => " instances of potential table starvation"
  | HighChangeLowPriority =>
      " instances of tables with high change ratio but low priority"
  end.

Definition is_digit (a : ascii) : bool :=
  (48 <=? nat_of_ascii a)%nat && (nat_of_ascii a <=? 57)%nat.

Fixpoint all_digits (s : string) : Prop :=
  match s with
  | EmptyString => True
  | String a s' => is_digit a = true /\ all_digits s'
  end.

(** The summary, one optional line per category, in the order of the code. *)
Definition line_if_over (c : Category) (a : Lists) : list string :=
  if (threshold_of c <? evidence_count c a)%nat
  then [line_of c (evidence_count c a)] else [].

(** ** Sample datasets *)

Definition exclusive_current : Row := mkRow 1 1000 0.9 0 0.1.

Definition tail_first : Row := mkRow 1 100 0.9 0 0.1.
Definition tail_last : Row := mkRow 2 100 0.5 200000 0.9.

(** A dataset of [n] records in which every adjacent pair is a large table
    blocking a small one. *)
Definition cascade (n : nat) : DataFrame :=
  map (fun k => mkRow (Z.of_nat k) (inject_Z (4 ^ Z.of_nat (n - k)))
                      (inject_Z (Z.of_nat (n - k))) 0 0)
      (seq 0 n).

(** ** The statistics one iteration asks for *)

(** The pandas calls of the iteration whose current record is [current]:
    the median when the record is overdue (line 67), then the quantile, then
    the median again when the change ratio exceeds the quantile (line 71). *)
Definition calls_of (df : DataFrame) (current : Row) : Trace :=
  (if overdue current then [SeriesMedian] else [])
  ++ [SeriesQuantile]
  ++ (if gt_stat (ChangeRatio current) (high_of df) then [SeriesMedian] else []).



(** ** The report: [analyze_priority_formula], [create_priority_visualizations],
    [load_data] and [main]

    The tuples of the evidence lists are read by position and the section
    names are tested with [startswith], so a tuple is modelled as the list of
    its fields. How Python renders a number, with or without a format
    specification, and the text of a correlation coefficient are parameters
    of the report. A dataset is a sequence of records with the five numeric
    fields. *)

Inductive Value : Type :=
  | VInt (z : Z)
  | VNum (q : Q).

(** A tuple of an evidence list. *)
Definition Instance : Type := list Value.

Definition pair_tuple (e : PairEvidence) : Instance :=
  let '(a, b, c, d) := e in [VInt a; VInt b; VNum c; VNum d].

Definition row_tuple (e : RowEvidence) : Instance :=
  let '(a, b, c) := e in [VInt a; VNum b; VNum c].

Record Formatter : Type := mkFormatter
  { show_value : Value -> string;             (* f"{v}" *)
    fixed : nat -> Value -> string;           (* f"{v:.4f}", f"{v:.2f}" *)
    corr_text : list Q -> list Q -> string }. (* f"{x.corr(y):.4f}" *)

(** One scatter plot. *)
Record Axes : Type := mkAxes
  { scatter_x : list Q;
    scatter_y : list Q;
    xlabel : string;
    ylabel : string;
    title : string;
    log_xscale : bool }.

Definition Figure : Type := list Axes.

(** What a run can change: the medians and quantiles asked of pandas, the
    correlations asked of it, by the names of the two columns, the lines
    printed and the figures saved, by file name. *)
Record World : Type := mkWorld
  { pandas_calls : Trace;
    corr_calls : list (string * string);
    stdout : list string;
    files : list (string * Figure) }.

Inductive Exn : Type :=
  | IndexError.

Inductive Outcome (A : Type) : Type :=
  | Returned (a : A)
  | Raised (e : Exn).

Arguments Returned {A} a.
Arguments Raised {A} e.

(** An exception leaves the world as it was when it was raised. *)
Definition IO (A : Type) : Type := World -> Outcome A * World.

Definition retIO {A} (a : A) : IO A := fun w => (Returned a, w).

Definition bindIO {A B} (m : IO A) (k : A -> IO B) : IO B :=
  fun w => match m w with
           | (Returned a, w') => k a w'
           | (Raised e, w') => (Raised e, w')
           end.

Definition raiseIO {A} (e : Exn) : IO A := fun w => (Raised e, w).

Notation "x <~ m ;; k" := (bindIO m (fun x => k))
  (at level 61, m at next level, right associativity).

(** A computation of the detector, run on the trace of the world. *)
Definition lift {A} (m : M A) : IO A :=
  fun w => match m (pandas_calls w) with
           | Some (a, t) => (Returned a, mkWorld t (corr_calls w) (stdout w) (files w))
           | None => (Raised IndexError, w)
           end.

(** [print(s)] *)
Definition print (s : string) : IO unit :=
  fun w => (Returned tt,
            mkWorld (pandas_calls w) (corr_calls w) (stdout w ++ [s]) (files w)).

(** [plt.savefig(name)]: the file is written anew. *)
Definition savefig (name : string) (fig : Figure) : IO unit :=
  fun w => (Returned tt,
            mkWorld (pandas_calls w) (corr_calls w) (stdout w)
              ((name, fig)
               :: filter (fun f => negb (String.eqb (fst f) name)) (files w))).

(** [df[x].corr(df[y])], rendered with four decimals. *)
Definition series_corr (F : Formatter) (x y : string) (xs ys : list Q) : IO string :=
  fun w => (Returned (corr_text F xs ys),
            mkWorld (pandas_calls w) (corr_calls w ++ [(x, y)]) (stdout w) (files w)).

(** [for x in l: body(x)] *)
Fixpoint for_each_io {A} (l : list A) (body : A -> IO unit) : IO unit :=
  match l with
  | [] => retIO tt
  | x :: rest => _ <~ body x ;; for_each_io rest body
  end.

(** [instance[k]] *)
Definition item (instance : Instance) (k : nat) : IO Value :=
  match nth_error instance k with
  | Some v => retIO v
  | None => raiseIO IndexError
  end.

Definition newline : string := String (ascii_of_nat 10) EmptyString.

(** Lines 147-152: the line printed for one instance of a section. *)
Definition print_instance (F : Formatter) (issue_name : string)
    (instance : Instance) : IO unit :=
  if prefix "Larger" issue_name || prefix "Smaller" issue_name then
    i0 <~ item instance 0 ;;
    i2 <~ item instance 2 ;;
    i1 <~ item instance 1 ;;
    i3 <~ item instance 3 ;;
    print ("Table " ++ show_value F i0 ++ " (size " ++ show_value F i2
           ++ ") may block table " ++ show_value F i1
           ++ " (size " ++ show_value F i3 ++ ")")%string
  else if prefix "Potential table starvation" issue_name then
    i0 <~ item instance 0 ;;
    i1 <~ item instance 1 ;;
    i2 <~ item instance 2 ;;
    print ("Table " ++ show_value F i0 ++ " (last analyzed " ++ show_value F i1
           ++ " seconds ago) has low priority " ++ fixed F 4 i2)%string
  else
    i0 <~ item instance 0 ;;
    i1 <~ item instance 1 ;;
    i2 <~ item instance 2 ;;
    print ("Table " ++ show_value F i0 ++ " (change ratio " ++ fixed F 2 i1
           ++ ") has low priority " ++ fixed F 4 i2)%string.

(** Lines 143-154: the section of one issue type. *)
Definition report_issue_type (F : Formatter)
    (entry : string * list Instance) : IO unit :=
  let '(issue_name, issue_list) := entry in
  match issue_list with
  | [] => retIO tt
  | _ :: _ =>
      _ <~ print (newline ++ issue_name ++ ":")%string ;;
      _ <~ for_each_io (firstn 5 issue_list) (print_instance F issue_name) ;;
      if (5 <? length issue_list)%nat
      then print ("... and " ++ format_count (length issue_list - 5)
                  ++ " more instances.")%string
      else retIO tt
  end.

(** Lines 136-141. *)
Definition issue_types (a : Lists) : list (string * list Instance) :=
  [("Larger tables potentially blocking smaller tables"%string,
    map pair_tuple (large_blocking_small a));
   ("Smaller tables potentially blocking larger tables"%string,
    map pair_tuple (small_blocking_large a));
   ("Potential table starvation"%string,
    map row_tuple (starved_tables a));
   ("Tables with high change ratio but low priority"%string,
    map row_tuple (high_change_low_priority a))].

(** The three scatter plots of [create_priority_visualizations]. *)
Definition priority_figure (df : DataFrame) : Figure :=
  [mkAxes (column ChangeRatio df) (column CalculatedPriority df)
     "Change Ratio" "Calculated Priority" "Priority vs Change Ratio" false;
   mkAxes (column TableSize df) (column CalculatedPriority df)
     "Table Size" "Calculated Priority" "Priority vs Table Size" true;
   mkAxes (column TimeSinceLastAnalyze df) (column CalculatedPriority df)
     "Time since last analyze (seconds)" "Calculated Priority"
     "Priority vs Time Since Last Analyze" false].

Definition create_priority_visualizations (df : DataFrame) : IO unit :=
  savefig "priority_relationships.png" (priority_figure df).

(** [analyze_priority_formula(df)] *)
Definition analyze_priority_formula (F : Formatter) (df : DataFrame) : IO unit :=
  r <~ lift (detect_priority_issues df) ;;
  _ <~ match issues r with
       | _ :: _ =>
           _ <~ print "Potential issues with the priority formula:" ;;
           for_each_io (issues r) (fun issue => print ("- " ++ issue)%string)
       | [] => print "No significant issues found with the priority formula."
       end ;;
  _ <~ for_each_io (issue_types (evidence r)) (report_issue_type F) ;;
  _ <~ create_priority_visualizations df ;;
  _ <~ print (newline ++ "Visualization of priority relationships saved as 'priority_relationships.png'")%string ;;
  _ <~ print (newline ++ "Correlation Statistics:")%string ;;
  c1 <~ series_corr F "ChangeRatio" "CalculatedPriority"
          (column ChangeRatio df) (column CalculatedPriority df) ;;
  _ <~ print ("Change Ratio vs Priority: " ++ c1)%string ;;
  c2 <~ series_corr F "TableSize" "CalculatedPriority"
          (column TableSize df) (column CalculatedPriority df) ;;
  _ <~ print ("Table Size vs Priority: " ++ c2)%string ;;
  c3 <~ series_corr F "TimeSinceLastAnalyze" "CalculatedPriority"
          (column TimeSinceLastAnalyze df) (column CalculatedPriority df) ;;
  print ("Time Since Last Analyze vs Priority: " ++ c3)%string.

(** ** The text of a report *)

(** The world after some more lines were printed. *)
Definition emit (lines : list string) (w : World) : World :=
  mkWorld (pandas_calls w) (corr_calls w) (stdout w ++ lines) (files w).

Definition pair_text (F : Formatter) (e : PairEvidence) : string :=
  let '(a, b, c, d) := e in
  ("Table " ++ show_value F (VInt a) ++ " (size " ++ show_value F (VNum c)
   ++ ") may block table " ++ show_value F (VInt b)
   ++ " (size " ++ show_value F (VNum d) ++ ")")%string.

Definition starved_text (F : Formatter) (e : RowEvidence) : string :=
  let '(a, b, c) := e in
  ("Table " ++ show_value F (VInt a) ++ " (last analyzed " ++ show_value F (VNum b)
   ++ " seconds ago) has low priority " ++ fixed F 4 (VNum c))%string.

Definition change_text (F : Formatter) (e : RowEvidence) : string :=
  let '(a, b, c) := e in
  ("Table " ++ show_value F (VInt a) ++ " (change ratio " ++ fixed F 2 (VNum b)
   ++ ") has low priority " ++ fixed F 4 (VNum c))%string.

Definition summary_lines (l : list string) : list string :=
  match l with
  | [] => ["No significant issues found with the priority formula."%string]
  | _ :: _ => "Potential issues with the priority formula:"%string
              :: map (fun issue => ("- " ++ issue)%string) l
  end.

Definition remainder_line (n : nat) : string :=
  ("... and " ++ format_count (n - 5) ++ " more instances.")%string.

(** The section of a list whose entries are rendered as [texts]. *)
Definition section_lines (issue_name : string) (texts : list string) : list string :=
  match texts with
  | [] => []
  | _ :: _ =>
      (newline ++ issue_name ++ ":")%string
      :: firstn 5 texts
      ++ (if (5 <? length texts)%nat then [remainder_line (length texts)] else [])
  end.

Definition closing_lines (F : Formatter) (df : DataFrame) : list string :=
  [(newline ++ "Visualization of priority relationships saved as 'priority_relationships.png'")%string;
   (newline ++ "Correlation Statistics:")%string;
   ("Change Ratio vs Priority: "
    ++ corr_text F (column ChangeRatio df) (column CalculatedPriority df))%string;
   ("Table Size vs Priority: "
    ++ corr_text F (column TableSize df) (column CalculatedPriority df))%string;
   ("Time Since Last Analyze vs Priority: "
    ++ corr_text F (column TimeSinceLastAnalyze df)
         (column CalculatedPriority df))%string].

Definition detail_lines (F : Formatter) (a : Lists) : list string :=
  section_lines "Larger tables potentially blocking smaller tables"
    (map (pair_text F) (large_blocking_small a))
  ++ section_lines "Smaller tables potentially blocking larger tables"
       (map (pair_text F) (small_blocking_large a))
  ++ section_lines "Potential table starvation"
       (map (starved_text F) (starved_tables a))
  ++ section_lines "Tables with high change ratio but low priority"
       (map (change_text F) (high_change_low_priority a)).

Definition report_lines (F : Formatter) (r : Result) (df : DataFrame) : list string :=
  summary_lines (issues r) ++ detail_lines F (evidence r) ++ closing_lines F df.

(** The number of lines of a section over [n] instances. *)
Definition section_size (n : nat) : nat :=
  match n with
  | O => 0
  | S _ => 1 + Nat.min n 5 + (if (5 <? n)%nat then 1 else 0)
  end.

(** A formatter for examples. *)
Definition plain_formatter : Formatter :=
  mkFormatter
    (fun v => match v with
              | VInt z => NilZero.string_of_int (Z.to_int z)
              | VNum q => NilZero.string_of_int (Z.to_int (Qfloor q))
              end)
    (fun _ v => match v with
                | VInt z => NilZero.string_of_int (Z.to_int z)
                | VNum q => NilZero.string_of_int (Z.to_int (Qfloor q))
                end)
    (fun _ _ => "nan"%string).

Definition empty_world : World := mkWorld [] [] [] [].

(** The three correlations of lines 162-164. *)
Definition correlations : list (string * string) :=
  [("ChangeRatio"%string, "CalculatedPriority"%string);
   ("TableSize"%string, "CalculatedPriority"%string);
   ("TimeSinceLastAnalyze"%string, "CalculatedPriority"%string)].

(** The name the figure is saved under. *)
Definition figure_file : string := "priority_relationships.png".


Definition six_starved : Lists :=
  mkLists [] []
    [(1%Z, 200000, 0.1); (2%Z, 200000, 0.1); (3%Z, 200000, 0.1);
     (4%Z, 200000, 0.1); (5%Z, 200000, 0.1); (6%Z, 200000, 0.1)]
    [].

(** ** Machine arithmetic: the numbers of a pandas row

    The properties that depend on how numbers are computed are stated over
    the numbers numpy computes with. A cell is a 64-bit integer, whose
    arithmetic wraps around, or a binary64 floating-point number, given by the
    IEEE 754 specification of the Standard Library. [df.iloc[i]] yields a
    Series of one dtype: the cells of a row are integers when every column of
    the frame is an integer column, and are converted to binary64 otherwise.
    [Series.median] and [Series.quantile] are parameters, whose results are
    binary64 numbers. *)

Module Machine.

Local Open Scope Z_scope.

Definition float64 : Type := spec_float.

Definition prec : Z := 53.
Definition emax : Z := 1024.

(** [float(z)], rounded to the nearest binary64 number. *)
Definition float_of_int (z : Z) : float64 := binary_normalize prec emax z 0 false.

(** The binary64 number nearest to [n / d], for integers below [2^53]: what
    Python reads a decimal literal as. *)
Definition decimal (n d : Z) : float64 :=
  SFdiv prec emax (float_of_int n) (float_of_int d).

(** ** Constants *)

Definition PRIORITY_DIFFERENCE_THRESHOLD : float64 := Eval vm_compute in decimal 5 100.
Definition TABLE_SIZE_RATIO_THRESHOLD : Z := 2.
Definition STARVATION_THRESHOLD_DAYS : Z := 2.
Definition CHANGE_RATIO_QUANTILE : float64 := Eval vm_compute in decimal 75 100.
Definition SECONDS_PER_DAY : Z := 24 * 3600.

(** ** numpy scalars *)

Inductive Scalar : Type :=
  | I64 (z : Z)
  | F64 (f : float64).

(** Two's complement wrap-around of [int64]. *)
Definition wrap64 (z : Z) : Z := ((z + 2 ^ 63) mod 2 ^ 64 - 2 ^ 63)%Z.

Definition is_int (x : Scalar) : bool :=
  match x with I64 _ => true | F64 _ => false end.

Definition to_float (x : Scalar) : float64 :=
  match x with
  | I64 z => float_of_int z
  | F64 f => f
  end.

(** [x * k] for a Python integer [k]. *)
Definition mul_int (x : Scalar) (k : Z) : Scalar :=
  match x with
  | I64 z => I64 (wrap64 (z * k))
  | F64 f => F64 (SFmul prec emax f (float_of_int k))
  end.

(** [x - y] *)
Definition sub (x y : Scalar) : Scalar :=
  match x, y with
  | I64 a, I64 b => I64 (wrap64 (a - b))
  | _, _ => F64 (SFsub prec emax (to_float x) (to_float y))
  end.

(** [x < y], [x <= y] and [x == y] for two scalars. *)
Definition ltb (x y : Scalar) : bool :=
  match x, y with
  | I64 a, I64 b => (a <? b)%Z
  | _, _ => SFltb (to_float x) (to_float y)
  end.

Definition leb (x y : Scalar) : bool :=
  match x, y with
  | I64 a, I64 b => (a <=? b)%Z
  | _, _ => SFleb (to_float x) (to_float y)
  end.

Definition eqb (x y : Scalar) : bool :=
  match x, y with
  | I64 a, I64 b => (a =? b)%Z
  | _, _ => SFeqb (to_float x) (to_float y)
  end.

(** [x > y] *)
Definition gtb (x y : Scalar) : bool := ltb y x.

(** [x > k] for a Python integer [k]. *)
Definition gt_int (x : Scalar) (k : Z) : bool :=
  match x with
  | I64 z => (k <? z)%Z
  | F64 f => SFltb (float_of_int k) f
  end.

(** [x > c] and [x < c] for a Python float or a [float64] [c]: an integer is
    converted first. *)
Definition gt_float (x : Scalar) (c : float64) : bool := SFltb c (to_float x).
Definition lt_float (x : Scalar) (c : float64) : bool := SFltb (to_float x) c.

(** ** Frames *)

(** The cells of one record, as the frame stores them. *)
Record Row : Type := mkRow
  { ID : Scalar;
    TableSize : Scalar;
    CalculatedPriority : Scalar;
    TimeSinceLastAnalyze : Scalar;
    ChangeRatio : Scalar }.

Definition Frame : Type := list Row.

Definition int_row (r : Row) : bool :=
  is_int (ID r) && is_int (TableSize r) && is_int (CalculatedPriority r)
  && is_int (TimeSinceLastAnalyze r) && is_int (ChangeRatio r).

(** Every column has dtype [int64]. *)
Definition is_int_frame (df : Frame) : bool := forallb int_row df.

Definition upcast (r : Row) : Row :=
  mkRow (F64 (to_float (ID r))) (F64 (to_float (TableSize r)))
        (F64 (to_float (CalculatedPriority r)))
        (F64 (to_float (TimeSinceLastAnalyze r)))
        (F64 (to_float (ChangeRatio r))).

(** The row Series of a record of [df]. *)
Definition as_series (df : Frame) (r : Row) : Row :=
  if is_int_frame df then r else upcast r.

(** [df.iloc[i]] for [i >= 0]. *)
Definition iloc (df : Frame) (i : nat) : M Row :=
  match nth_error df i with
  | Some r => ret (as_series df r)
  | None => raise
  end.

(** [df['col']]: the cells of a column, of one dtype. *)
Definition column (f : Row -> Scalar) (df : Frame) : list Scalar :=
  let cells := map f df in
  if forallb is_int cells then cells else map (fun x => F64 (to_float x)) cells.

(** The two statistics of pandas. *)
Record Pandas : Type := mkPandas
  { median : list Scalar -> float64;
    quantile : float64 -> list Scalar -> float64 }.

Definition priority_median (P : Pandas) (df : Frame) : M float64 :=
  fun t => Some (median P (column CalculatedPriority df), t ++ [SeriesMedian]).

Definition change_ratio_quantile (P : Pandas) (df : Frame) : M float64 :=
  fun t => Some (quantile P CHANGE_RATIO_QUANTILE (column ChangeRatio df),
                 t ++ [SeriesQuantile]).

(** ** The detector *)

Definition PairEvidence : Type := (Scalar * Scalar * Scalar * Scalar)%type.
Definition RowEvidence : Type := (Scalar * Scalar * Scalar)%type.

Record Lists : Type := mkLists
  { large_blocking_small : list PairEvidence;
    small_blocking_large : list PairEvidence;
    starved_tables : list RowEvidence;
    high_change_low_priority : list RowEvidence }.

Definition no_evidence : Lists := mkLists [] [] [] [].

Record Result : Type := mkResult
  { issues : list string;
    evidence : Lists }.

(** Line 59. *)
Definition large_blocks_small (current next_table : Row) : bool :=
  gtb (TableSize current) (mul_int (TableSize next_table) TABLE_SIZE_RATIO_THRESHOLD)
  && gt_float (sub (CalculatedPriority current) (CalculatedPriority next_table))
              PRIORITY_DIFFERENCE_THRESHOLD.

(** Line 63. *)
Definition small_blocks_large (current next_table : Row) : bool :=
  ltb (mul_int (TableSize current) TABLE_SIZE_RATIO_THRESHOLD) (TableSize next_table)
  && gt_float (sub (CalculatedPriority current) (CalculatedPriority next_table))
              PRIORITY_DIFFERENCE_THRESHOLD.

Definition pair_evidence (current next_table : Row) : PairEvidence :=
  (ID current, ID next_table, TableSize current, TableSize next_table).

Definition starved_evidence (current : Row) : RowEvidence :=
  (ID current, TimeSinceLastAnalyze current, CalculatedPriority current).

Definition change_evidence (current : Row) : RowEvidence :=
  (ID current, ChangeRatio current, CalculatedPriority current).

Definition overdue (current : Row) : bool :=
  gt_int (TimeSinceLastAnalyze current) (STARVATION_THRESHOLD_DAYS * SECONDS_PER_DAY).

(** One iteration of the loop at lines 55-72. *)
Definition loop_body (P : Pandas) (df : Frame) (i : nat) (a : Lists) : M Lists :=
  current <- iloc df i ;;
  next_table <- iloc df (i + 1)%nat ;;
  let a1 :=
    if large_blocks_small current next_table
    then mkLists (large_blocking_small a ++ [pair_evidence current next_table])
                 (small_blocking_large a) (starved_tables a)
                 (high_change_low_priority a)
    else a in
  let a2 :=
    if small_blocks_large current next_table
    then mkLists (large_blocking_small a1)
                 (small_blocking_large a1 ++ [pair_evidence current next_table])
                 (starved_tables a1) (high_change_low_priority a1)
    else a1 in
  is_starved <-
    and_then (overdue current)
             (m <- priority_median P df ;;
              ret (lt_float (CalculatedPriority current) m)) ;;
  let a3 :=
    if is_starved
    then mkLists (large_blocking_small a2) (small_blocking_large a2)
                 (starved_tables a2 ++ [starved_evidence current])
                 (high_change_low_priority a2)
    else a2 in
  is_high_change <-
    (h <- change_ratio_quantile P df ;;
     and_then (gt_float (ChangeRatio current) h)
              (m <- priority_median P df ;;
               ret (lt_float (CalculatedPriority current) m))) ;;
  let a4 :=
    if is_high_change
    then mkLists (large_blocking_small a3) (small_blocking_large a3)
                 (starved_tables a3)
                 (high_change_low_priority a3 ++ [change_evidence current])
    else a3 in
  ret a4.

(** Lines 74-85, on the lengths of the four lists. *)
Definition summarize (a : Lists) : list string :=
  let issues0 : list string := [] in
  let issues1 :=
    if (LARGE_BLOCKING_SMALL_THRESHOLD <? length (large_blocking_small a))%nat
    then issues0 ++ [large_blocking_small_line (length (large_blocking_small a))]
    else issues0 in
  let issues2 :=
    if (SMALL_BLOCKING_LARGE_THRESHOLD <? length (small_blocking_large a))%nat
    then issues1 ++ [small_blocking_large_line (length (small_blocking_large a))]
    else issues1 in
  let issues3 :=
    if (STARVED_TABLES_THRESHOLD <? length (starved_tables a))%nat
    then issues2 ++ [starved_tables_line (length (starved_tables a))]
    else issues2 in
  let issues4 :=
    if (HIGH_CHANGE_LOW_PRIORITY_THRESHOLD <? length (high_change_low_priority a))%nat
    then issues3 ++ [high_change_low_priority_line (length (high_change_low_priority a))]
    else issues3 in
  issues4.

(** [detect_priority_issues(df)] *)
Definition detect_priority_issues (P : Pandas) (df : Frame) : M Result :=
  a <- for_each (range (len df - 1)) (loop_body P df) no_evidence ;;
  ret (mkResult (summarize a) a).

(** ** The scan as a filter over the adjacent pairs *)

(** The row Series of the frame, in position order. *)
Definition series (df : Frame) : list Row := map (as_series df) df.

Definition adjacent_pairs (df : Frame) : list (Row * Row) :=
  combine (series df) (tl (series df)).

Definition is_starved (med : float64) (current : Row) : bool :=
  overdue current && lt_float (CalculatedPriority current) med.

Definition is_high_change (high med : float64) (current : Row) : bool :=
  gt_float (ChangeRatio current) high && lt_float (CalculatedPriority current) med.

Definition lists_of (med high : float64) (ps : list (Row * Row)) : Lists :=
  mkLists
    (map (fun p => pair_evidence (fst p) (snd p))
         (filter (fun p => large_blocks_small (fst p) (snd p)) ps))
    (map (fun p => pair_evidence (fst p) (snd p))
         (filter (fun p => small_blocks_large (fst p) (snd p)) ps))
    (map starved_evidence (filter (is_starved med) (map fst ps)))
    (map change_evidence (filter (is_high_change high med) (map fst ps))).

Definition add_lists (a b : Lists) : Lists :=
  mkLists (large_blocking_small a ++ large_blocking_small b)
          (small_blocking_large a ++ small_blocking_large b)
          (starved_tables a ++ starved_tables b)
          (high_change_low_priority a ++ high_change_low_priority b).

Definition median_of (P : Pandas) (df : Frame) : float64 :=
  median P (column CalculatedPriority df).

Definition high_of (P : Pandas) (df : Frame) : float64 :=
  quantile P CHANGE_RATIO_QUANTILE (column ChangeRatio df).

Definition scan_lists (P : Pandas) (df : Frame) : Lists :=
  lists_of (median_of P df) (high_of P df) (adjacent_pairs df).

Definition expected_result (P : Pandas) (df : Frame) : Result :=
  mkResult (summarize (scan_lists P df)) (scan_lists P df).

(** [x >= 0] *)
Definition nonneg (x : Scalar) : bool :=
  match x with
  | I64 z => 0 <=? z
  | F64 f => SFleb (S754_zero false) f
  end.

(** Doubling [x] does not make it smaller: for a size that is not negative,
    the product [x * 2] did not wrap around. *)
Definition doubles (x : Scalar) : bool :=
  leb x (mul_int x TABLE_SIZE_RATIO_THRESHOLD).

(** ** The statistics as numpy computes them, on columns without NaN *)

Fixpoint insert_float (x : float64) (l : list float64) : list float64 :=
  match l with
  | [] => [x]
  | y :: l' => if SFleb x y then x :: l else y :: insert_float x l'
  end.

Definition sort_floats (l : list float64) : list float64 :=
  fold_right insert_float [] l.

(** The integer part of a binary64 number that is not negative. *)
Definition floor_float (f : float64) : Z :=
  match f with
  | S754_finite false m e =>
      if 0 <=? e then Zpos m * 2 ^ e else Zpos m / 2 ^ (- e)
  | _ => 0
  end.

(** [np.median]: the middle value, or the mean of the two middle values. *)
Definition np_median (col : list Scalar) : float64 :=
  let v := sort_floats (map to_float col) in
  let n := length v in
  match n with
  | O => S754_nan
  | S _ =>
      if Nat.even n
      then SFdiv prec emax
             (SFadd prec emax (nth (n / 2 - 1) v S754_nan) (nth (n / 2) v S754_nan))
             (float_of_int 2)
      else nth (n / 2) v S754_nan
  end.

(** [np.percentile] with linear interpolation, at the position [q * (n - 1)]
    of the sorted column. *)
Definition np_quantile (q : float64) (col : list Scalar) : float64 :=
  let v := sort_floats (map to_float col) in
  let n := length v in
  match n with
  | O => S754_nan
  | S _ =>
      let virtual := SFmul prec emax q (float_of_int (Z.of_nat n - 1)) in
      let lo := floor_float virtual in
      let hi := Z.min (lo + 1) (Z.of_nat n - 1) in
      let gamma := SFsub prec emax virtual (float_of_int lo) in
      let a := nth (Z.to_nat lo) v S754_nan in
      let b := nth (Z.to_nat hi) v S754_nan in
      let diff := SFsub prec emax b a in
      if SFleb (decimal 1 2) gamma
      then SFsub prec emax b
             (SFmul prec emax diff (SFsub prec emax (float_of_int 1) gamma))
      else SFadd prec emax a (SFmul prec emax diff gamma)
  end.

Definition numpy : Pandas := mkPandas np_median np_quantile.

(** A row of integers, and a row read from decimal numbers in hundredths. *)
Definition int_cells (id size priority age change : Z) : Row :=
  mkRow (I64 id) (I64 size) (I64 priority) (I64 age) (I64 change).

Definition cells (id size priority100 age change100 : Z) : Row :=
  mkRow (I64 id) (I64 size) (F64 (decimal priority100 100)) (I64 age)
        (F64 (decimal change100 100)).

(** The lengths of the four lists of a run. *)
Definition evidence_lengths (x : option (Result * Trace))
    : option (nat * nat * nat * nat) :=
  option_map
    (fun x => (length (large_blocking_small (evidence (fst x))),
               length (small_blocking_large (evidence (fst x))),
               length (starved_tables (evidence (fst x))),
               length (high_change_low_priority (evidence (fst x)))))
    x.

(** ** Sample frames *)

Definition exclusive_frame : Frame :=
  [cells 1 1000 90 0 10; cells 2 10 50 0 10].

Definition boundary_frame : Frame :=
  [cells 1 20 90 0 10; cells 2 10 50 0 10].

Definition overflow_frame : Frame :=
  [int_cells 1 1 1 0 0; int_cells 2 5000000000000000000 0 0 0].

Definition boundary_overflow_frame : Frame :=
  [int_cells 1 4611686018427387904 1 0 0; int_cells 2 2305843009213693952 0 0 0].

Definition steady_frame : Frame :=
  [cells 1 100 40 200000 90; cells 2 100 60 0 50; cells 3 100 60 0 50].

Definition steady_rows : Frame :=
  [cells 4 10 50 0 70; cells 5 100 60 0 70].

Definition shrink_frame : Frame :=
  [cells 1 100 40 200000 90; cells 2 100 40 200000 10; cells 3 100 40 200000 10;
   cells 4 100 60 0 10; cells 5 100 60 0 10; cells 6 100 60 0 10;
   cells 7 100 60 0 10].

Definition shrink_rows : Frame :=
  [cells 8 100 10 200000 10; cells 9 100 20 200000 10].

End Machine.

(** * Lemmas *)

Section ListFacts.

Context {A : Type}.

Lemma nth_error_tl (l : list A) (j : nat) :
  nth_error (tl l) j = nth_error l (S j).
Proof. destruct l as [|x l]; [destruct j|]; reflexivity. Qed.

Lemma nth_error_combine {B : Type} (l : list A) (l' : list B) j p :
  nth_error (combine l l') j = Some p ->
  nth_error l j = Some (fst p) /\ nth_error l' j = Some (snd p).
Proof.
  revert l' j; induction l as [|x l IH]; intros [|y l'] [|j] H;
    simpl in *; try discriminate.
  - injection H as <-. split; reflexivity.
  - apply IH; assumption.
Qed.

Lemma length_combine_tl (l : list A) :
  length (combine l (tl l)) = (length l - 1)%nat.
Proof.
  rewrite length_combine. destruct l as [|x l]; cbn [tl length]; lia.
Qed.

Lemma map_fst_combine_tl (l : list A) :
  map fst (combine l (tl l)) = removelast l.
Proof.
  induction l as [|x [|y l] IH]; try reflexivity.
  simpl in *. f_equal. exact IH.
Qed.

End ListFacts.

Lemma adjacent_pairs_lookup (df : DataFrame) j p :
  nth_error (adjacent_pairs df) j = Some p ->
  nth_error df j = Some (fst p) /\ nth_error df (j + 1) = Some (snd p).
Proof.
  unfold adjacent_pairs. intros H.
  apply nth_error_combine in H. destruct H as [H1 H2].
  rewrite nth_error_tl in H2. rewrite Nat.add_1_r. split; assumption.
Qed.

Lemma range_adjacent_pairs (df : DataFrame) :
  range (len df - 1) = seq 0 (length (adjacent_pairs df)).
Proof.
  unfold range, len, adjacent_pairs. rewrite length_combine_tl.
  f_equal. lia.
Qed.

Lemma adjacent_pairs_cons (x y : Row) (df : DataFrame) :
  adjacent_pairs (x :: y :: df) = (x, y) :: adjacent_pairs (y :: df).
Proof. reflexivity. Qed.

Lemma adjacent_pairs_nth (df : DataFrame) i current next_table :
  nth_error (adjacent_pairs df) i = Some (current, next_table) <->
  nth_error df i = Some current /\ nth_error df (S i) = Some next_table.
Proof.
  split.
  - intros H. apply adjacent_pairs_lookup in H. rewrite Nat.add_1_r in H. exact H.
  - revert i. induction df as [|x [|y df] IH]; intros i [Hc Hn].
    + destruct i; discriminate Hc.
    + destruct i as [|[|i]]; discriminate Hn.
    + rewrite adjacent_pairs_cons. destruct i as [|i].
      * simpl in *. congruence.
      * simpl. apply IH. split; assumption.
Qed.

Lemma add_lists_assoc (a b c : Lists) :
  add_lists (add_lists a b) c = add_lists a (add_lists b c).
Proof. unfold add_lists; simpl. rewrite <- !app_assoc. reflexivity. Qed.

Lemma add_lists_nil_r (a : Lists) : add_lists a no_evidence = a.
Proof. destruct a; unfold add_lists; simpl. rewrite !app_nil_r. reflexivity. Qed.

Lemma add_lists_nil_l (a : Lists) : add_lists no_evidence a = a.
Proof. destruct a; reflexivity. Qed.

Lemma lists_of_cons med high p ps :
  lists_of med high (p :: ps)
  = add_lists (lists_of med high [p]) (lists_of med high ps).
Proof.
  unfold lists_of, add_lists; simpl.
  destruct (large_blocks_small (fst p) (snd p)), (small_blocks_large (fst p) (snd p)),
    (is_starved med (fst p)), (is_high_change high med (fst p)); reflexivity.
Qed.

Lemma lists_of_app med high ps qs :
  lists_of med high (ps ++ qs)
  = add_lists (lists_of med high ps) (lists_of med high qs).
Proof.
  induction ps as [|p ps IH]; simpl.
  - symmetry; apply add_lists_nil_l.
  - rewrite lists_of_cons, IH, <- add_lists_assoc, <- lists_of_cons. reflexivity.
Qed.

(** One iteration of the loop as written appends the evidence of one pair. *)
Lemma loop_body_step (df : DataFrame) i current next_table a t :
  nth_error df i = Some current ->
  nth_error df (i + 1) = Some next_table ->
  exists t',
    loop_body df i a t
    = Some (add_lists a (lists_of (median_of df) (high_of df) [(current, next_table)]), t').
Proof.
  intros Hc Hn. unfold loop_body, iloc, bind. rewrite Hc. simpl. rewrite Hn. simpl.
  unfold lists_of, add_lists, is_starved, is_high_change, and_then,
    priority_median, change_ratio_quantile, bind, ret, median_of, high_of; simpl.
  destruct a as [l1 l2 l3 l4]; simpl.
  destruct (large_blocks_small current next_table),
    (small_blocks_large current next_table),
    (overdue current),
    (gt_stat (ChangeRatio current) (quantile CHANGE_RATIO_QUANTILE (column ChangeRatio df))),
    (lt_stat (CalculatedPriority current) (median (column CalculatedPriority df)));
    simpl; rewrite ?app_nil_r; eexists; reflexivity.
Qed.

(** One iteration of the two-phase scan appends the same evidence. *)
Lemma scan_body_step med high (df : DataFrame) i current next_table a t :
  nth_error df i = Some current ->
  nth_error df (i + 1) = Some next_table ->
  scan_body med high df i a t
  = Some (add_lists a (lists_of med high [(current, next_table)]), t).
Proof.
  intros Hc Hn. unfold scan_body, iloc, bind. rewrite Hc. simpl. rewrite Hn. simpl.
  unfold lists_of, add_lists, is_starved, is_high_change, ret; simpl.
  destruct (large_blocks_small current next_table),
    (small_blocks_large current next_table),
    (overdue current && lt_stat (CalculatedPriority current) med),
    (gt_stat (ChangeRatio current) high && lt_stat (CalculatedPriority current) med);
    reflexivity.
Qed.

(** A loop whose every iteration appends the evidence of the pair at its
    position appends, in all, the evidence of the pairs it ran over. *)
Lemma for_each_pairs med high (df : DataFrame) (body : nat -> Lists -> M Lists) :
  (forall i current next_table a t,
      nth_error df i = Some current ->
      nth_error df (i + 1) = Some next_table ->
      exists t',
        body i a t
        = Some (add_lists a (lists_of med high [(current, next_table)]), t')) ->
  forall ps s a t,
    (forall j p, nth_error ps j = Some p ->
                 nth_error df (s + j) = Some (fst p)
                 /\ nth_error df (s + j + 1) = Some (snd p)) ->
    exists t',
      for_each (seq s (length ps)) body a t
      = Some (add_lists a (lists_of med high ps), t').
Proof.
  intros Hbody ps. induction ps as [|[c n] ps IH]; intros s a t Hps.
  - exists t. simpl. unfold ret. rewrite add_lists_nil_r. reflexivity.
  - destruct (Hps 0%nat (c, n) eq_refl) as [Hc Hn]. simpl in Hc, Hn.
    rewrite Nat.add_0_r in Hc, Hn.
    destruct (Hbody s c n a t Hc Hn) as [t1 H1].
    destruct (IH (S s) (add_lists a (lists_of med high [(c, n)])) t1) as [t2 H2].
    { intros j p Hj. specialize (Hps (S j) p Hj).
      replace (S s + j)%nat with (s + S j)%nat by lia. exact Hps. }
    exists t2. simpl. unfold bind at 1. rewrite H1. rewrite H2.
    rewrite add_lists_assoc, <- lists_of_cons. reflexivity.
Qed.

(** The loop of the detector, run on the whole dataset. *)
Lemma loop_runs (df : DataFrame) (a : Lists) (t : Trace) :
  exists t',
    for_each (range (len df - 1)) (loop_body df) a t
    = Some (add_lists a (scan_lists df), t').
Proof.
  rewrite range_adjacent_pairs. unfold scan_lists.
  apply for_each_pairs with (df := df).
  - intros; apply loop_body_step; assumption.
  - intros j p Hj. simpl. apply adjacent_pairs_lookup; assumption.
Qed.

(** The detector returns, on every dataset and from every trace. *)
Lemma detect_runs (df : DataFrame) (t : Trace) :
  exists t', detect_priority_issues df t = Some (expected_result df, t').
Proof.
  destruct (loop_runs df no_evidence t) as [t' H].
  exists t'. unfold detect_priority_issues, bind. rewrite H.
  rewrite add_lists_nil_l. reflexivity.
Qed.

Lemma two_phase_runs (df : DataFrame) (t : Trace) :
  exists t', detect_priority_issues_two_phase df t = Some (expected_result df, t').
Proof.
  unfold detect_priority_issues_two_phase, bind, priority_median,
    change_ratio_quantile.
  rewrite range_adjacent_pairs.
  destruct (for_each_pairs (median_of df) (high_of df) df
              (scan_body (median_of df) (high_of df) df)) with
    (ps := adjacent_pairs df) (s := 0%nat) (a := no_evidence)
    (t := (t ++ [SeriesMedian]) ++ [SeriesQuantile]) as [t' H].
  - intros i c n a t0 Hc Hn. exists t0. apply scan_body_step; assumption.
  - intros j p Hj. simpl. apply adjacent_pairs_lookup; assumption.
  - exists t'. unfold median_of, high_of in H. rewrite H.
    rewrite add_lists_nil_l. reflexivity.
Qed.

(** ** Comparisons *)





(** ** The summary lines *)

Lemma line_of_eq (c : Category) (n : nat) :
  line_of c n = ("Found " ++ (format_count n ++ line_tail c))%string.
Proof. destruct c; reflexivity. Qed.

Lemma line_tail_starts_with_space (c : Category) :
  exists s, line_tail c = String " " s.
Proof. destruct c; eexists; reflexivity. Qed.

Lemma line_tail_inj (c c' : Category) : line_tail c = line_tail c' -> c = c'.
Proof. destruct c, c'; simpl; intros H; try reflexivity; discriminate H. Qed.

Lemma string_of_uint_all_digits (d : Decimal.uint) :
  all_digits (NilEmpty.string_of_uint d).
Proof. induction d; simpl; auto. Qed.

Lemma to_uint_not_Nil (n : nat) : Nat.to_uint n <> Decimal.Nil.
Proof.
  intros H.
  pose proof (DecimalNat.Unsigned.to_of (Nat.to_uint n)) as E.
  rewrite DecimalNat.Unsigned.of_to in E.
  apply (DecimalFacts.unorm_nonnil (Nat.to_uint n)).
  rewrite <- E. exact H.
Qed.

Lemma format_count_eq (n : nat) :
  format_count n = NilEmpty.string_of_uint (Nat.to_uint n).
Proof.
  unfold format_count.
  pose proof (to_uint_not_Nil n) as H.
  destruct (Nat.to_uint n); [contradiction|reflexivity..].
Qed.

Lemma format_count_all_digits (n : nat) : all_digits (format_count n).
Proof. rewrite format_count_eq. apply string_of_uint_all_digits. Qed.

Lemma format_count_inj (n m : nat) : format_count n = format_count m -> n = m.
Proof.
  rewrite !format_count_eq. intros H.
  apply DecimalNat.Unsigned.to_uint_inj.
  apply (f_equal NilEmpty.uint_of_string) in H.
  rewrite !NilEmpty.usu in H. injection H as H. exact H.
Qed.

(** A run of digits followed by a space determines both parts. *)
Lemma digits_then_space (d d' s s' : string) :
  all_digits d -> all_digits d' ->
  (d ++ String " " s = d' ++ String " " s')%string ->
  d = d' /\ s = s'.
Proof.
  revert d'. induction d as [|a d IH]; intros [|a' d'] Hd Hd' H; simpl in *.
  - injection H as ->. split; reflexivity.
  - injection H as <- _. destruct Hd' as [Ha _]. discriminate Ha.
  - injection H as -> _. destruct Hd as [Ha _]. discriminate Ha.
  - injection H as -> H. destruct Hd as [_ Hd], Hd' as [_ Hd'].
    destruct (IH d' Hd Hd' H) as [-> ->]. split; reflexivity.
Qed.

Lemma line_of_inj (c c' : Category) (n n' : nat) :
  line_of c n = line_of c' n' -> c = c' /\ n = n'.
Proof.
  rewrite !line_of_eq. intros H.
  simpl in H. injection H as H.
  destruct (line_tail_starts_with_space c) as [s Hs].
  destruct (line_tail_starts_with_space c') as [s' Hs'].
  pose proof H as H0. rewrite Hs, Hs' in H0.
  apply digits_then_space in H0; auto using format_count_all_digits.
  destruct H0 as [Hn Htail]. split.
  - apply line_tail_inj. rewrite Hs, Hs', Htail. reflexivity.
  - apply format_count_inj; assumption.
Qed.

Lemma summarize_eq (a : Lists) :
  summarize a
  = line_if_over LargeBlockingSmall a ++ line_if_over SmallBlockingLarge a
    ++ line_if_over StarvedTables a ++ line_if_over HighChangeLowPriority a.
Proof.
  unfold summarize, line_if_over; simpl.
  destruct (_ <? length (large_blocking_small a))%nat,
    (_ <? length (small_blocking_large a))%nat,
    (_ <? length (starved_tables a))%nat,
    (_ <? length (high_change_low_priority a))%nat; reflexivity.
Qed.

Lemma in_line_if_over (c c' : Category) (n : nat) (a : Lists) :
  In (line_of c n) (line_if_over c' a) <->
  c = c' /\ n = evidence_count c a /\ (threshold_of c < evidence_count c a)%nat.
Proof.
  unfold line_if_over.
  destruct (Nat.ltb_spec (threshold_of c') (evidence_count c' a)) as [Hlt|Hge]; simpl.
  - split.
    + intros [H|[]]. symmetry in H. apply line_of_inj in H.
      destruct H as [-> ->]. auto.
    + intros (-> & -> & _). left; reflexivity.
  - split; [intros []|]. intros (-> & _ & H). lia.
Qed.

Lemma in_summarize (c : Category) (n : nat) (a : Lists) :
  In (line_of c n) (summarize a) <->
  n = evidence_count c a /\ (threshold_of c < evidence_count c a)%nat.
Proof.
  rewrite summarize_eq, !in_app_iff, !in_line_if_over.
  destruct c; intuition congruence.
Qed.

Lemma summarize_NoDup (a : Lists) : NoDup (summarize a).
Proof.
  rewrite summarize_eq. unfold line_if_over.
  destruct (_ <? _)%nat, (_ <? _)%nat, (_ <? _)%nat, (_ <? _)%nat; cbn [app];
    repeat constructor; cbn [In]; intuition;
    match goal with
    | H : line_of _ _ = line_of _ _ |- _ =>
        apply line_of_inj in H; destruct H; discriminate
    end.
Qed.

(** The two per-record rules are applied to every record but the last. *)
Lemma per_record_rules_skip_last (df : DataFrame) (t : Trace) :
  exists r t',
    detect_priority_issues df t = Some (r, t')
    /\ starved_tables (evidence r)
       = map starved_evidence (filter (is_starved (median_of df)) (removelast df))
    /\ high_change_low_priority (evidence r)
       = map change_evidence
           (filter (is_high_change (high_of df) (median_of df)) (removelast df)).
Proof.
  destruct (detect_runs df t) as [t' H].
  exists (expected_result df), t'. split; [exact H|].
  cbn [expected_result evidence scan_lists lists_of starved_tables
         high_change_low_priority].
  unfold scan_lists, lists_of; cbn [starved_tables high_change_low_priority].
  unfold adjacent_pairs. rewrite map_fst_combine_tl. split; reflexivity.
Qed.

(** The three-record example of the specification: the first pair is a
    large table blocking a small one, and the starved list is empty. *)
Example three_record_example :
  detect_priority_issues
    [mkRow 1 1000 0.9 0 0.1; mkRow 2 10 0.5 0 0.1; mkRow 3 5 0.5 200000 0.1] []
  = Some (mkResult [] (mkLists [(1%Z, 2%Z, 1000, 10)] [] [] []),
          [SeriesQuantile; SeriesQuantile]).
Proof. reflexivity. Qed.

(** * The properties of the detector *)

(** C2. The last record of [[tail_first; tail_last]] is overdue, below the
    priority median (0.7) and above the 0.75 quantile of the change ratio
    (0.7), yet the detector returns an empty starved list and an empty
    high-change list: the loop stops one record short. *)
Theorem last_record_not_examined :
  overdue tail_last = true
  /\ lt_stat (CalculatedPriority tail_last) (median_of [tail_first; tail_last]) = true
  /\ gt_stat (ChangeRatio tail_last) (high_of [tail_first; tail_last]) = true
  /\ detect_priority_issues [tail_first; tail_last] []
     = Some (mkResult [] (mkLists [] [] [] []), [SeriesQuantile]).
Proof. repeat split. Qed.

(** C3. The two-phase variant, which computes the priority median and the
    0.75 quantile of the change ratio once before the scan, returns the same
    tuple as the detector as written, on every dataset. *)
Theorem two_phase_same_result (df : DataFrame) (t : Trace) :
  exists r t1 t2,
    detect_priority_issues df t = Some (r, t1)
    /\ detect_priority_issues_two_phase df t = Some (r, t2).
Proof.
  destruct (detect_runs df t) as [t1 H1].
  destruct (two_phase_runs df t) as [t2 H2].
  exists (expected_result df), t1, t2. split; assumption.
Qed.

(** C4. The summary holds a line for a category exactly when that category's
    evidence list is longer than its threshold (10, 10, 5, 5), the line states
    the length of the list, and no line occurs twice; with 10
    [large_blocking_small] entries there is no line for that category, and
    with 11 there is exactly one, stating 11. *)
Theorem issues_summary_thresholds (df : DataFrame) (t : Trace) :
  exists r t',
    detect_priority_issues df t = Some (r, t')
    /\ issues r
       = flat_map (fun c => if (threshold_of c <? evidence_count c (evidence r))%nat
                            then [line_of c (evidence_count c (evidence r))]
                            else [])
           [LargeBlockingSmall; SmallBlockingLarge; StarvedTables;
            HighChangeLowPriority]
    /\ (forall n, In (large_blocking_small_line n) (issues r) <->
                  n = length (large_blocking_small (evidence r))
                  /\ (10 < length (large_blocking_small (evidence r)))%nat)
    /\ (forall n, In (small_blocking_large_line n) (issues r) <->
                  n = length (small_blocking_large (evidence r))
                  /\ (10 < length (small_blocking_large (evidence r)))%nat)
    /\ (forall n, In (starved_tables_line n) (issues r) <->
                  n = length (starved_tables (evidence r))
                  /\ (5 < length (starved_tables (evidence r)))%nat)
    /\ (forall n, In (high_change_low_priority_line n) (issues r) <->
                  n = length (high_change_low_priority (evidence r))
                  /\ (5 < length (high_change_low_priority (evidence r)))%nat)
    /\ (forall s, In s (issues r) ->
                  exists c, s = line_of c (evidence_count c (evidence r)))
    /\ NoDup (issues r)
    /\ (length (large_blocking_small (evidence r)) = 10%nat ->
        forall n, ~ In (large_blocking_small_line n) (issues r))
    /\ (length (large_blocking_small (evidence r)) = 11%nat ->
        count_occ string_dec (issues r) (large_blocking_small_line 11) = 1%nat
        /\ forall n, In (large_blocking_small_line n) (issues r) -> n = 11%nat).
Proof.
  destruct (detect_runs df t) as [t' H].
  exists (expected_result df), t'. split; [exact H|].
  unfold expected_result; cbn [issues evidence]. set (a := scan_lists df).
  assert (H1 : forall n, In (large_blocking_small_line n) (summarize a) <->
                         n = length (large_blocking_small a)
                         /\ (10 < length (large_blocking_small a))%nat)
    by (intros n; exact (in_summarize LargeBlockingSmall n a)).
  split; [rewrite summarize_eq; cbn [flat_map]; rewrite app_nil_r; reflexivity|].
  split; [exact H1|].
  split; [intros n; exact (in_summarize SmallBlockingLarge n a)|].
  split; [intros n; exact (in_summarize StarvedTables n a)|].
  split; [intros n; exact (in_summarize HighChangeLowPriority n a)|].
  split; [|split; [apply summarize_NoDup|split]].
  - intros s Hin. rewrite summarize_eq, !in_app_iff in Hin.
    unfold line_if_over in Hin.
    destruct Hin as [Hin|[Hin|[Hin|Hin]]];
      destruct (_ <? _)%nat in Hin; cbn [In] in Hin; try contradiction;
      destruct Hin as [<-|[]]; eexists; reflexivity.
  - intros E n Hin. apply H1 in Hin. lia.
  - intros E. split.
    + assert (Hin : In (large_blocking_small_line 11) (summarize a))
        by (apply H1; lia).
      pose proof (summarize_NoDup a) as Hnd.
      rewrite (NoDup_count_occ string_dec) in Hnd.
      specialize (Hnd (large_blocking_small_line 11)).
      apply (count_occ_In string_dec) in Hin. lia.
    + intros n Hin. apply H1 in Hin. lia.
Qed.

Lemma issues_summary_thresholds_witness :
  (exists r t',
      detect_priority_issues (cascade 11) [] = Some (r, t')
      /\ length (large_blocking_small (evidence r)) = 10%nat
      /\ issues r = []
      /\ forall n, ~ In (large_blocking_small_line n) (issues r))
  /\ (exists r t',
         detect_priority_issues (cascade 12) [] = Some (r, t')
         /\ length (large_blocking_small (evidence r)) = 11%nat
         /\ issues r = [large_blocking_small_line 11]
         /\ count_occ string_dec (issues r) (large_blocking_small_line 11) = 1%nat
         /\ forall n, In (large_blocking_small_line n) (issues r) -> n = 11%nat).
Proof.
  split.
  - destruct (issues_summary_thresholds (cascade 11) [])
      as (r & t' & Hrun & _ & _ & _ & _ & _ & _ & _ & H10 & _).
    assert (E : length (large_blocking_small (evidence r)) = 10%nat
                /\ issues r = []).
    { vm_compute in Hrun. injection Hrun as <- _. split; reflexivity. }
    exists r, t'. split; [exact Hrun|]. split; [exact (proj1 E)|].
    split; [exact (proj2 E)|]. exact (H10 (proj1 E)).
  - destruct (issues_summary_thresholds (cascade 12) [])
      as (r & t' & Hrun & _ & _ & _ & _ & _ & _ & _ & _ & H11).
    assert (E : length (large_blocking_small (evidence r)) = 11%nat
                /\ issues r = [large_blocking_small_line 11]).
    { vm_compute in Hrun. injection Hrun as <- _. split; reflexivity. }
    exists r, t'. split; [exact Hrun|]. split; [exact (proj1 E)|].
    split; [exact (proj2 E)|]. exact (H11 (proj1 E)).
Defined.

(** C5. On the empty dataset the loop runs over the empty [range(-1)]: the
    detector returns four empty evidence lists and an empty summary, raises
    nothing, and evaluates neither the median nor the quantile, the trace of
    statistics being left as it was. *)
Theorem empty_dataset_no_issues (t : Trace) :
  range (len (@nil Row) - 1) = []
  /\ detect_priority_issues [] t = Some (mkResult [] (mkLists [] [] [] []), t).
Proof.
  assert (Hrange : range (len (@nil Row) - 1) = []) by reflexivity.
  split; [exact Hrange|].
  unfold detect_priority_issues, bind. rewrite Hrange.
  cbn [for_each]. unfold ret. reflexivity.
Qed.

(** C10. On a dataset of one record the loop runs zero times: the detector
    returns four empty evidence lists and an empty summary, whatever the
    record holds, and evaluates no statistic. *)
Theorem single_record_no_issues (r : Row) (t : Trace) :
  range (len [r] - 1) = []
  /\ detect_priority_issues [r] t = Some (mkResult [] (mkLists [] [] [] []), t).
Proof.
  assert (Hrange : range (len [r] - 1) = []) by reflexivity.
  split; [exact Hrange|].
  unfold detect_priority_issues, bind. rewrite Hrange.
  cbn [for_each]. unfold ret. reflexivity.
Qed.

(** * Further properties of the detector *)

(** ** The trace of a run *)

Lemma loop_body_exact (df : DataFrame) i current next_table a t :
  nth_error df i = Some current ->
  nth_error df (i + 1) = Some next_table ->
  loop_body df i a t
  = Some (add_lists a (lists_of (median_of df) (high_of df) [(current, next_table)]),
          t ++ calls_of df current).
Proof.
  intros Hc Hn. unfold loop_body, iloc, bind. rewrite Hc. simpl. rewrite Hn. simpl.
  unfold lists_of, add_lists, is_starved, is_high_change, and_then, calls_of,
    priority_median, change_ratio_quantile, bind, ret, median_of, high_of; simpl.
  destruct a as [l1 l2 l3 l4]; simpl.
  destruct (large_blocks_small current next_table),
    (small_blocks_large current next_table),
    (overdue current),
    (gt_stat (ChangeRatio current) (quantile CHANGE_RATIO_QUANTILE (column ChangeRatio df))),
    (lt_stat (CalculatedPriority current) (median (column CalculatedPriority df)));
    simpl; rewrite ?app_nil_r, <- ?app_assoc; reflexivity.
Qed.

Lemma for_each_exact (df : DataFrame) :
  forall ps s a t,
    (forall j p, nth_error ps j = Some p ->
                 nth_error df (s + j) = Some (fst p)
                 /\ nth_error df (s + j + 1) = Some (snd p)) ->
    for_each (seq s (length ps)) (loop_body df) a t
    = Some (add_lists a (lists_of (median_of df) (high_of df) ps),
            t ++ flat_map (calls_of df) (map fst ps)).
Proof.
  intros ps. induction ps as [|[c n] ps IH]; intros s a t Hps.
  - simpl. unfold ret. rewrite add_lists_nil_r, app_nil_r. reflexivity.
  - destruct (Hps 0%nat (c, n) eq_refl) as [Hc Hn]. simpl in Hc, Hn.
    rewrite Nat.add_0_r in Hc, Hn.
    simpl. unfold bind at 1. rewrite (loop_body_exact df s c n a t Hc Hn).
    rewrite IH.
    + rewrite add_lists_assoc, <- lists_of_cons, <- app_assoc. reflexivity.
    + intros j p Hj. specialize (Hps (S j) p Hj).
      replace (S s + j)%nat with (s + S j)%nat by lia. exact Hps.
Qed.

Lemma detect_exact (df : DataFrame) (t : Trace) :
  detect_priority_issues df t
  = Some (expected_result df, t ++ flat_map (calls_of df) (removelast df)).
Proof.
  unfold detect_priority_issues, bind. rewrite range_adjacent_pairs.
  rewrite (for_each_exact df (adjacent_pairs df) 0 no_evidence t).
  - rewrite add_lists_nil_l.
    change (map fst (adjacent_pairs df)) with (map fst (combine df (tl df))).
    rewrite map_fst_combine_tl. reflexivity.
  - intros j p Hj. simpl. apply adjacent_pairs_lookup; assumption.
Qed.




(** ** Membership in the scanned pairs and records *)

Lemma in_adjacent_pairs (df : DataFrame) (p : Row * Row) :
  In p (adjacent_pairs df) -> In (fst p) df /\ In (snd p) df.
Proof.
  destruct p as [c n]. unfold adjacent_pairs. intros H. split.
  - apply (in_combine_l _ _ _ _ H).
  - apply in_combine_r in H. destruct df; [contradiction|right; exact H].
Qed.

Lemma in_removelast_df (df : DataFrame) (r : Row) :
  In r (removelast df) -> In r df.
Proof.
  rewrite <- (map_fst_combine_tl df), in_map_iff.
  intros [p [<- Hp]]. apply (in_adjacent_pairs df p Hp).
Qed.


Lemma length_filter_le {A} (f : A -> bool) (l : list A) :
  (length (filter f l) <= length l)%nat.
Proof. induction l as [|x l IH]; simpl; [lia|]. destruct (f x); simpl; lia. Qed.

Lemma length_exclusive_filters {A} (f g : A -> bool) (l : list A) :
  (forall x, In x l -> f x && g x = false) ->
  (length (filter f l) + length (filter g l) <= length l)%nat.
Proof.
  induction l as [|x l IH]; intros H; simpl; [lia|].
  pose proof (H x (or_introl eq_refl)) as Hx.
  assert (IH' := IH (fun y Hy => H y (or_intror Hy))).
  destruct (f x), (g x); simpl in *; try discriminate; lia.
Qed.

(** ** The median of equal values *)








(** ** The other three evidence lists *)



(** X4. No evidence list is longer than the number of adjacent pairs: on a
    dataset of N records each of the four lists has at most N - 1 entries. *)
Theorem evidence_length_bounds (df : DataFrame) (t : Trace) :
  exists r t',
    detect_priority_issues df t = Some (r, t')
    /\ (length (large_blocking_small (evidence r)) <= length df - 1)%nat
    /\ (length (small_blocking_large (evidence r)) <= length df - 1)%nat
    /\ (length (starved_tables (evidence r)) <= length df - 1)%nat
    /\ (length (high_change_low_priority (evidence r)) <= length df - 1)%nat.
Proof.
  exists (expected_result df). eexists. split; [apply detect_exact|].
  cbn [expected_result evidence]. unfold scan_lists, lists_of.
  cbn [large_blocking_small small_blocking_large starved_tables
         high_change_low_priority].
  rewrite !length_map.
  pose proof (length_combine_tl df) as Hlen. fold (adjacent_pairs df) in Hlen.
  assert (Hfst : length (map fst (adjacent_pairs df)) = (length df - 1)%nat)
    by (rewrite length_map; exact Hlen).
  repeat split;
    (etransitivity; [apply length_filter_le|]); rewrite ?Hfst, ?Hlen; lia.
Qed.




(** * Properties of the report *)

(** ** Printing *)

Lemma emit_nil (w : World) : emit [] w = w.
Proof. destruct w; unfold emit; simpl. rewrite app_nil_r. reflexivity. Qed.

Lemma emit_emit (l l' : list string) (w : World) :
  emit l' (emit l w) = emit (l ++ l') w.
Proof. unfold emit; simpl. rewrite app_assoc. reflexivity. Qed.

Lemma bindIO_returned {A B} (m : IO A) (k : A -> IO B) (w w' : World) (a : A) :
  m w = (Returned a, w') -> bindIO m k w = k a w'.
Proof. intros H. unfold bindIO. rewrite H. reflexivity. Qed.

Lemma print_emit (s : string) (w : World) : print s w = (Returned tt, emit [s] w).
Proof. reflexivity. Qed.

Lemma for_each_io_emit {A} (f : A -> string) (body : A -> IO unit) (l : list A) :
  (forall x w, body x w = (Returned tt, emit [f x] w)) ->
  forall w, for_each_io l body w = (Returned tt, emit (map f l) w).
Proof.
  intros Hbody. induction l as [|x l IH]; intros w; simpl.
  - unfold retIO. rewrite emit_nil. reflexivity.
  - rewrite (bindIO_returned _ _ _ _ _ (Hbody x w)), IH, emit_emit. reflexivity.
Qed.

Lemma for_each_io_map_emit {A B} (g : A -> B) (f : A -> string)
    (body : B -> IO unit) (l : list A) :
  (forall x w, body (g x) w = (Returned tt, emit [f x] w)) ->
  forall w, for_each_io (map g l) body w = (Returned tt, emit (map f l) w).
Proof.
  intros Hbody. induction l as [|x l IH]; intros w; simpl.
  - unfold retIO. rewrite emit_nil. reflexivity.
  - rewrite (bindIO_returned _ _ _ _ _ (Hbody x w)), IH, emit_emit. reflexivity.
Qed.

(** ** The format of an instance matches its tuple *)

Lemma print_larger_instance (F : Formatter) (e : PairEvidence) (w : World) :
  print_instance F "Larger tables potentially blocking smaller tables" (pair_tuple e) w
  = (Returned tt, emit [pair_text F e] w).
Proof. destruct e as [[[a b] c] d]. reflexivity. Qed.

Lemma print_smaller_instance (F : Formatter) (e : PairEvidence) (w : World) :
  print_instance F "Smaller tables potentially blocking larger tables" (pair_tuple e) w
  = (Returned tt, emit [pair_text F e] w).
Proof. destruct e as [[[a b] c] d]. reflexivity. Qed.

Lemma print_starved_instance (F : Formatter) (e : RowEvidence) (w : World) :
  print_instance F "Potential table starvation" (row_tuple e) w
  = (Returned tt, emit [starved_text F e] w).
Proof. destruct e as [[a b] c]. reflexivity. Qed.

Lemma print_change_instance (F : Formatter) (e : RowEvidence) (w : World) :
  print_instance F "Tables with high change ratio but low priority" (row_tuple e) w
  = (Returned tt, emit [change_text F e] w).
Proof. destruct e as [[a b] c]. reflexivity. Qed.

(** ** One section *)

Lemma report_issue_type_emit {E} (F : Formatter) (issue_name : string)
    (tuple : E -> Instance) (text : E -> string) (l : list E) :
  (forall e w, print_instance F issue_name (tuple e) w
               = (Returned tt, emit [text e] w)) ->
  forall w,
    report_issue_type F (issue_name, map tuple l) w
    = (Returned tt, emit (section_lines issue_name (map text l)) w).
Proof.
  intros Hfmt w. destruct l as [|e l].
  - simpl. unfold retIO. rewrite emit_nil. reflexivity.
  - unfold report_issue_type, section_lines.
    set (items := e :: l).
    change (map tuple items) with (tuple e :: map tuple l) at 1.
    change (map text items) with (text e :: map text l) at 1.
    cbv iota. rewrite (bindIO_returned _ _ _ _ _ (print_emit _ w)).
    rewrite firstn_map.
    rewrite (bindIO_returned _ _ _ _ _
               (for_each_io_map_emit tuple text _ (firstn 5 items) Hfmt _)).
    rewrite !length_map, emit_emit, <- firstn_map.
    destruct (5 <? length items)%nat.
    + rewrite print_emit, emit_emit. unfold remainder_line.
      rewrite <- app_assoc. reflexivity.
    + unfold retIO. rewrite app_nil_r. reflexivity.
Qed.

Lemma report_sections_emit (F : Formatter) (a : Lists) (w : World) :
  for_each_io (issue_types a) (report_issue_type F) w
  = (Returned tt, emit (detail_lines F a) w).
Proof.
  unfold issue_types, detail_lines. cbn [for_each_io].
  rewrite (bindIO_returned _ _ _ _ _
             (report_issue_type_emit F _ pair_tuple (pair_text F) _
                (print_larger_instance F) w)).
  rewrite (bindIO_returned _ _ _ _ _
             (report_issue_type_emit F _ pair_tuple (pair_text F) _
                (print_smaller_instance F) _)).
  rewrite (bindIO_returned _ _ _ _ _
             (report_issue_type_emit F _ row_tuple (starved_text F) _
                (print_starved_instance F) _)).
  rewrite (bindIO_returned _ _ _ _ _
             (report_issue_type_emit F _ row_tuple (change_text F) _
                (print_change_instance F) _)).
  unfold retIO. rewrite !emit_emit, <- ?app_assoc. reflexivity.
Qed.

Lemma summary_emit (l : list string) (w : World) :
  match l with
  | _ :: _ =>
      _ <~ print "Potential issues with the priority formula:" ;;
      for_each_io l (fun issue => print ("- " ++ issue)%string)
  | [] => print "No significant issues found with the priority formula."
  end w
  = (Returned tt, emit (summary_lines l) w).
Proof.
  destruct l as [|x l]; [reflexivity|].
  rewrite (bindIO_returned _ _ _ _ _ (print_emit _ w)).
  rewrite (for_each_io_emit (fun issue => ("- " ++ issue)%string)) by reflexivity.
  rewrite emit_emit. reflexivity.
Qed.

(** ** The whole run *)

Lemma analyze_exact (F : Formatter) (df : DataFrame) (w : World) :
  analyze_priority_formula F df w
  = (Returned tt,
     mkWorld (pandas_calls w ++ flat_map (calls_of df) (removelast df))
       (corr_calls w ++ correlations)
       (stdout w ++ report_lines F (expected_result df) df)
       ((figure_file, priority_figure df)
        :: filter (fun f => negb (String.eqb (fst f) figure_file)) (files w))).
Proof.
  unfold analyze_priority_formula.
  assert (Hrun : lift (detect_priority_issues df) w
                 = (Returned (expected_result df),
                    mkWorld (pandas_calls w ++ flat_map (calls_of df) (removelast df))
                      (corr_calls w) (stdout w) (files w))).
  { unfold lift. rewrite detect_exact. reflexivity. }
  rewrite (bindIO_returned _ _ _ _ _ Hrun).
  rewrite (bindIO_returned _ _ _ _ _ (summary_emit _ _)).
  rewrite (bindIO_returned _ _ _ _ _ (report_sections_emit F _ _)).
  cbv beta iota delta [bindIO create_priority_visualizations savefig series_corr
                         print emit pandas_calls corr_calls stdout files].
  unfold report_lines, closing_lines, correlations.
  f_equal. f_equal.
  - rewrite <- !app_assoc. reflexivity.
  - rewrite <- !app_assoc. reflexivity.
Qed.

Lemma summarize_nil_iff (a : Lists) :
  summarize a = [] <->
  (length (large_blocking_small a) <= 10
   /\ length (small_blocking_large a) <= 10
   /\ length (starved_tables a) <= 5
   /\ length (high_change_low_priority a) <= 5)%nat.
Proof.
  rewrite summarize_eq. unfold line_if_over.
  cbv [threshold_of evidence_count LARGE_BLOCKING_SMALL_THRESHOLD
         SMALL_BLOCKING_LARGE_THRESHOLD STARVED_TABLES_THRESHOLD
         HIGH_CHANGE_LOW_PRIORITY_THRESHOLD].
  destruct (Nat.ltb_spec 10 (length (large_blocking_small a))),
    (Nat.ltb_spec 10 (length (small_blocking_large a))),
    (Nat.ltb_spec 5 (length (starved_tables a))),
    (Nat.ltb_spec 5 (length (high_change_low_priority a)));
    cbn [app]; split; intros Hyp; try discriminate Hyp; try reflexivity;
    try (repeat split; assumption); lia.
Qed.

Lemma section_lines_length (issue_name : string) (texts : list string) :
  length (section_lines issue_name texts) = section_size (length texts).
Proof.
  destruct texts as [|x texts]; [reflexivity|].
  unfold section_lines, section_size. set (l := x :: texts).
  change (length l) with (S (length texts)) at 3.
  cbn [length]. rewrite length_app, length_firstn.
  fold (length l). destruct (5 <? length l)%nat; simpl length; lia.
Qed.

Lemma section_lines_head (issue_name : string) (texts : list string) :
  texts <> [] ->
  hd_error (section_lines issue_name texts)
  = Some (newline ++ issue_name ++ ":")%string.
Proof. destruct texts; [contradiction|reflexivity]. Qed.

Lemma section_lines_last (issue_name : string) (texts : list string) :
  (5 < length texts)%nat ->
  last (section_lines issue_name texts) EmptyString
  = remainder_line (length texts).
Proof.
  intros H. destruct texts as [|x texts]; [simpl in H; lia|].
  unfold section_lines. set (l := x :: texts) in *.
  destruct (Nat.ltb_spec 5 (length l)); [|lia].
  rewrite app_comm_cons. apply last_last.
Qed.



(** X9. The report opens with the line "No significant issues found with the
    priority formula." exactly when no evidence list is longer than its
    threshold (10, 10, 5, 5), also when the lists are not empty and their
    sections follow; otherwise it opens with "Potential issues with the
    priority formula:". *)
Theorem report_first_line (F : Formatter) (df : DataFrame) (w : World) :
  exists r t' w' first rest,
    detect_priority_issues df (pandas_calls w) = Some (r, t')
    /\ analyze_priority_formula F df w = (Returned tt, w')
    /\ stdout w' = stdout w ++ first :: rest
    /\ (first = "No significant issues found with the priority formula."%string
        \/ first = "Potential issues with the priority formula:"%string)
    /\ (first = "No significant issues found with the priority formula."%string
        <-> (length (large_blocking_small (evidence r)) <= 10
             /\ length (small_blocking_large (evidence r)) <= 10
             /\ length (starved_tables (evidence r)) <= 5
             /\ length (high_change_low_priority (evidence r)) <= 5)%nat).
Proof.
  pose proof (summarize_nil_iff (scan_lists df)) as Hnil.
  exists (expected_result df). eexists. eexists.
  destruct (summarize (scan_lists df)) as [|line lines] eqn:Es.
  - eexists. eexists.
    split; [apply detect_exact|]. split; [apply analyze_exact|].
    cbn [stdout expected_result issues evidence]. unfold report_lines.
    cbn [expected_result issues evidence]. rewrite Es. cbn [summary_lines app].
    split; [reflexivity|]. split; [left; reflexivity|].
    split; [intros _; apply Hnil; reflexivity|reflexivity].
  - eexists. eexists.
    split; [apply detect_exact|]. split; [apply analyze_exact|].
    cbn [stdout expected_result issues evidence]. unfold report_lines.
    cbn [expected_result issues evidence]. rewrite Es. cbn [summary_lines app].
    split; [reflexivity|]. split; [right; reflexivity|].
    split; [intros H; discriminate H|].
    intros H. apply Hnil in H. discriminate H.
Qed.

(** X10. The section of an issue type with n instances takes no line when
    n = 0 and otherwise 1 + min(n, 5) lines, plus one when n > 5; it starts
    with the name of the issue type after a line break and, when n > 5, ends
    with "... and (n - 5) more instances.". The section never raises. *)
Theorem section_shape (F : Formatter) (a : Lists)
    (entry : string * list Instance) (w : World) :
  In entry (issue_types a) ->
  exists lines,
    report_issue_type F entry w = (Returned tt, emit lines w)
    /\ length lines = section_size (length (snd entry))
    /\ (snd entry <> [] ->
        hd_error lines = Some (newline ++ fst entry ++ ":")%string)
    /\ ((5 < length (snd entry))%nat ->
        last lines EmptyString
        = ("... and " ++ format_count (length (snd entry) - 5)
           ++ " more instances.")%string).
Proof.
  assert (Hgen : forall E (tuple : E -> Instance) (text : E -> string) name l,
             (forall e w0, print_instance F name (tuple e) w0
                           = (Returned tt, emit [text e] w0)) ->
             exists lines,
               report_issue_type F (name, map tuple l) w = (Returned tt, emit lines w)
               /\ length lines = section_size (length (map tuple l))
               /\ (map tuple l <> [] ->
                   hd_error lines = Some (newline ++ name ++ ":")%string)
               /\ ((5 < length (map tuple l))%nat ->
                   last lines EmptyString
                   = ("... and " ++ format_count (length (map tuple l) - 5)
                      ++ " more instances.")%string)).
  { intros E tuple text name l Hfmt.
    exists (section_lines name (map text l)).
    split; [apply report_issue_type_emit; exact Hfmt|].
    rewrite length_map.
    split; [rewrite section_lines_length, length_map; reflexivity|].
    split.
    - intros Hne. apply section_lines_head. destruct l; [contradiction|discriminate].
    - intros Hlen. rewrite section_lines_last by (rewrite length_map; exact Hlen).
      unfold remainder_line. rewrite length_map. reflexivity. }
  unfold issue_types. intros [<-|[<-|[<-|[<-|[]]]]]; cbn [fst snd].
  - apply (Hgen _ pair_tuple (pair_text F)), print_larger_instance.
  - apply (Hgen _ pair_tuple (pair_text F)), print_smaller_instance.
  - apply (Hgen _ row_tuple (starved_text F)), print_starved_instance.
  - apply (Hgen _ row_tuple (change_text F)), print_change_instance.
Qed.

Lemma section_shape_witness :
  exists lines,
    report_issue_type plain_formatter
      ("Potential table starvation"%string, map row_tuple (starved_tables six_starved))
      empty_world
    = (Returned tt, emit lines empty_world)
    /\ length lines = 7%nat
    /\ hd_error lines = Some (newline ++ "Potential table starvation:")%string
    /\ last lines EmptyString = "... and 1 more instances."%string.
Proof.
  destruct (section_shape plain_formatter six_starved
              ("Potential table starvation"%string,
               map row_tuple (starved_tables six_starved)) empty_world)
    as (lines & Hrun & Hlen & Hhd & Hlast).
  { right; right; left; reflexivity. }
  exists lines. split; [exact Hrun|]. split; [exact Hlen|]. split.
  - apply Hhd. discriminate.
  - apply Hlast. simpl. lia.
Defined.



(** X12. On a dataset of at most one record the run prints exactly six lines,
    the line "No significant issues found with the priority formula.", the
    notice of the figure and the correlation lines, and asks pandas for no
    median and no quantile. *)
Theorem short_dataset_report (F : Formatter) (df : DataFrame) (w : World) :
  (length df <= 1)%nat ->
  exists w',
    analyze_priority_formula F df w = (Returned tt, w')
    /\ pandas_calls w' = pandas_calls w
    /\ stdout w'
       = stdout w
         ++ "No significant issues found with the priority formula."%string
            :: closing_lines F df
    /\ length (closing_lines F df) = 5%nat.
Proof.
  intros Hlen. eexists. split; [apply analyze_exact|].
  assert (Hr : removelast df = [] /\ expected_result df = mkResult [] no_evidence).
  { destruct df as [|r [|r' df]]; [split; reflexivity..|simpl in Hlen; lia]. }
  destruct Hr as [Hlast Hres]. cbn [pandas_calls stdout].
  rewrite Hlast, Hres. split; [apply app_nil_r|]. split; reflexivity.
Qed.

Lemma short_dataset_report_witness :
  exists w',
    analyze_priority_formula plain_formatter [exclusive_current] empty_world
    = (Returned tt, w')
    /\ pandas_calls w' = pandas_calls empty_world
    /\ stdout w'
       = stdout empty_world
         ++ "No significant issues found with the priority formula."%string
            :: closing_lines plain_formatter [exclusive_current]
    /\ length (closing_lines plain_formatter [exclusive_current]) = 5%nat.
Proof.
  apply (short_dataset_report plain_formatter [exclusive_current] empty_world).
  simpl. lia.
Defined.

(** * Properties that depend on machine arithmetic *)

Section MachineArithmetic.

Local Open Scope Z_scope.

(** ** The order of binary64 numbers *)

Ltac sf_order :=
  unfold SFltb, SFleb, SFeqb, SFcompare;
  repeat match goal with
         | x : spec_float |- _ => destruct x as [[|]|[|]| |[|] ? ?]
         end;
  try discriminate; try reflexivity;
  rewrite ?Pos.compare_cont_spec; cbn [Pos.switch_Eq];
  repeat match goal with
         | |- context [Z.compare ?a ?b] => destruct (Z.compare_spec a b)
         | |- context [Pos.compare ?a ?b] => destruct (Pos.compare_spec a b)
         end;
  subst; cbn; try discriminate; try reflexivity; try lia.

Lemma SFltb_trans (x y z : spec_float) :
  SFltb x y = true -> SFltb y z = true -> SFltb x z = true.
Proof. sf_order. Qed.

Lemma SFleb_ltb_trans (x y z : spec_float) :
  SFleb x y = true -> SFltb y z = true -> SFltb x z = true.
Proof. sf_order. Qed.

Lemma SFltb_leb_trans (x y z : spec_float) :
  SFltb x y = true -> SFleb y z = true -> SFltb x z = true.
Proof. sf_order. Qed.

Lemma SFltb_irrefl (x : spec_float) : SFltb x x = false.
Proof. sf_order. Qed.

Lemma SFeqb_ltb_false (x y : spec_float) :
  SFeqb x y = true -> SFltb y x = false.
Proof. sf_order. Qed.

Lemma SFeqb_ltb_trans (x y z : spec_float) :
  SFeqb x y = true -> SFltb x z = true -> SFltb y z = true.
Proof. sf_order. Qed.

(** ** The order of scalars of one dtype *)

Lemma machine_chain_false (n n2 c c2 : Machine.Scalar) :
  Machine.is_int n = Machine.is_int c ->
  Machine.is_int n2 = Machine.is_int n ->
  Machine.is_int c2 = Machine.is_int c ->
  Machine.leb n n2 = true -> Machine.ltb n2 c = true ->
  Machine.leb c c2 = true -> Machine.ltb c2 n = true -> False.
Proof.
  destruct n as [n|n], n2 as [n2|n2], c as [c|c], c2 as [c2|c2];
    simpl; try discriminate; intros _ _ _ H1 H2 H3 H4.
  - apply Z.leb_le in H1, H3. apply Z.ltb_lt in H2, H4. lia.
  - pose proof (SFleb_ltb_trans _ _ _ H1 H2) as Hnc.
    pose proof (SFleb_ltb_trans _ _ _ H3 H4) as Hcn.
    pose proof (SFltb_trans _ _ _ Hnc Hcn) as Hnn.
    rewrite SFltb_irrefl in Hnn. discriminate Hnn.
Qed.

Lemma machine_mul_int_kind (x : Machine.Scalar) (k : Z) :
  Machine.is_int (Machine.mul_int x k) = Machine.is_int x.
Proof. destruct x; reflexivity. Qed.

Lemma machine_size_rules_exclusive (current next_table : Machine.Row) :
  Machine.is_int (Machine.TableSize next_table)
  = Machine.is_int (Machine.TableSize current) ->
  Machine.doubles (Machine.TableSize current) = true ->
  Machine.doubles (Machine.TableSize next_table) = true ->
  Machine.large_blocks_small current next_table
  && Machine.small_blocks_large current next_table = false.
Proof.
  intros Hk Dc Dn.
  destruct (Machine.large_blocks_small current next_table) eqn:El;
    destruct (Machine.small_blocks_large current next_table) eqn:Es; try reflexivity.
  exfalso. unfold Machine.large_blocks_small in El.
  unfold Machine.small_blocks_large in Es.
  apply andb_true_iff in El, Es. destruct El as [El _], Es as [Es _].
  unfold Machine.gtb in El. unfold Machine.doubles in Dc, Dn.
  eapply machine_chain_false;
    [exact Hk|apply machine_mul_int_kind|apply machine_mul_int_kind
     |exact Dn|exact El|exact Dc|exact Es].
Qed.

Lemma machine_size_boundary_rules (current next_table : Machine.Row) :
  Machine.is_int (Machine.TableSize next_table)
  = Machine.is_int (Machine.TableSize current) ->
  Machine.doubles (Machine.TableSize current) = true ->
  Machine.doubles (Machine.TableSize next_table) = true ->
  Machine.eqb (Machine.TableSize current)
    (Machine.mul_int (Machine.TableSize next_table) 2) = true ->
  Machine.large_blocks_small current next_table = false
  /\ Machine.small_blocks_large current next_table = false.
Proof.
  unfold Machine.large_blocks_small, Machine.small_blocks_large, Machine.doubles,
    Machine.gtb, Machine.TABLE_SIZE_RATIO_THRESHOLD.
  destruct (Machine.TableSize current) as [c|c],
    (Machine.TableSize next_table) as [n|n];
    simpl; try discriminate; intros _ Dc Dn E.
  - apply Z.leb_le in Dc, Dn. apply Z.eqb_eq in E. split.
    + apply andb_false_iff; left. apply Z.ltb_ge. lia.
    + apply andb_false_iff; left. apply Z.ltb_ge. lia.
  - split.
    + apply andb_false_iff; left. apply SFeqb_ltb_false. exact E.
    + apply andb_false_iff; left. apply not_true_iff_false. intros Hs.
      pose proof (SFleb_ltb_trans _ _ _ Dc Hs) as Hcn.
      pose proof (SFeqb_ltb_trans _ _ _ E Hcn) as Hn2n.
      pose proof (SFleb_ltb_trans _ _ _ Dn Hn2n) as Hnn.
      rewrite SFltb_irrefl in Hnn. discriminate Hnn.
Qed.

(** On [int64], a size that is not negative doubles without wrapping around
    exactly when it is below [2^62]. *)
Lemma machine_doubles_int64 (z : Z) :
  - 2 ^ 63 <= z < 2 ^ 63 ->
  (Machine.nonneg (Machine.I64 z) && Machine.doubles (Machine.I64 z) = true
   <-> 0 <= z < 2 ^ 62).
Proof.
  intros Hz. unfold Machine.nonneg, Machine.doubles, Machine.leb, Machine.mul_int,
    Machine.wrap64, Machine.TABLE_SIZE_RATIO_THRESHOLD.
  rewrite andb_true_iff, !Z.leb_le.
  change (2 ^ 63) with 9223372036854775808 in *.
  change (2 ^ 64) with 18446744073709551616.
  change (2 ^ 62) with 4611686018427387904.
  split.
  - intros [H0 H]. split; [exact H0|].
    destruct (Z_lt_ge_dec z 4611686018427387904) as [Hlt|Hge]; [exact Hlt|].
    exfalso.
    assert (E : (z * 2 + 9223372036854775808) mod 18446744073709551616
                = z * 2 - 9223372036854775808).
    { symmetry. apply (Z.mod_unique _ _ 1); lia. }
    rewrite E in H. lia.
  - intros [H0 H1]. split; [exact H0|].
    rewrite Z.mod_small by lia. lia.
Qed.

(** ** The loop over the rows of a frame *)

Lemma machine_length_series (df : Machine.Frame) :
  length (Machine.series df) = length df.
Proof. apply length_map. Qed.

Lemma machine_iloc_series (df : Machine.Frame) (i : nat) (r : Machine.Row) (t : Trace) :
  nth_error (Machine.series df) i = Some r -> Machine.iloc df i t = Some (r, t).
Proof.
  unfold Machine.series, Machine.iloc. rewrite nth_error_map.
  destruct (nth_error df i); simpl; [|discriminate].
  intros H. injection H as <-. reflexivity.
Qed.

Lemma machine_add_lists_assoc (a b c : Machine.Lists) :
  Machine.add_lists (Machine.add_lists a b) c
  = Machine.add_lists a (Machine.add_lists b c).
Proof. unfold Machine.add_lists; simpl. rewrite <- !app_assoc. reflexivity. Qed.

Lemma machine_add_lists_nil_r (a : Machine.Lists) :
  Machine.add_lists a Machine.no_evidence = a.
Proof.
  destruct a; unfold Machine.add_lists; simpl. rewrite !app_nil_r. reflexivity.
Qed.

Lemma machine_add_lists_nil_l (a : Machine.Lists) :
  Machine.add_lists Machine.no_evidence a = a.
Proof. destruct a; reflexivity. Qed.

Lemma machine_lists_of_cons med high p ps :
  Machine.lists_of med high (p :: ps)
  = Machine.add_lists (Machine.lists_of med high [p]) (Machine.lists_of med high ps).
Proof.
  unfold Machine.lists_of, Machine.add_lists; simpl.
  destruct (Machine.large_blocks_small (fst p) (snd p)),
    (Machine.small_blocks_large (fst p) (snd p)),
    (Machine.is_starved med (fst p)), (Machine.is_high_change high med (fst p));
    reflexivity.
Qed.

Lemma machine_lists_of_app med high ps qs :
  Machine.lists_of med high (ps ++ qs)
  = Machine.add_lists (Machine.lists_of med high ps) (Machine.lists_of med high qs).
Proof.
  induction ps as [|p ps IH]; simpl.
  - symmetry; apply machine_add_lists_nil_l.
  - rewrite machine_lists_of_cons, IH, <- machine_add_lists_assoc,
      <- machine_lists_of_cons. reflexivity.
Qed.

Lemma machine_loop_body_step (P : Machine.Pandas) (df : Machine.Frame) i
    current next_table a t :
  nth_error (Machine.series df) i = Some current ->
  nth_error (Machine.series df) (i + 1) = Some next_table ->
  exists t',
    Machine.loop_body P df i a t
    = Some (Machine.add_lists a
              (Machine.lists_of (Machine.median_of P df) (Machine.high_of P df)
                 [(current, next_table)]), t').
Proof.
  intros Hc Hn. unfold Machine.loop_body, bind.
  rewrite (machine_iloc_series df i current t Hc).
  rewrite (machine_iloc_series df (i + 1) next_table t Hn).
  unfold Machine.lists_of, Machine.add_lists, Machine.is_starved,
    Machine.is_high_change, and_then, Machine.priority_median,
    Machine.change_ratio_quantile, bind, ret, Machine.median_of, Machine.high_of;
    simpl.
  destruct a as [l1 l2 l3 l4]; simpl.
  destruct (Machine.large_blocks_small current next_table),
    (Machine.small_blocks_large current next_table),
    (Machine.overdue current),
    (Machine.gt_float (Machine.ChangeRatio current)
       (Machine.quantile P Machine.CHANGE_RATIO_QUANTILE
          (Machine.column Machine.ChangeRatio df))),
    (Machine.lt_float (Machine.CalculatedPriority current)
       (Machine.median P (Machine.column Machine.CalculatedPriority df)));
    simpl; rewrite ?app_nil_r; eexists; reflexivity.
Qed.

Lemma machine_for_each_pairs (P : Machine.Pandas) (df : Machine.Frame) :
  forall ps s a t,
    (forall j p, nth_error ps j = Some p ->
                 nth_error (Machine.series df) (s + j) = Some (fst p)
                 /\ nth_error (Machine.series df) (s + j + 1) = Some (snd p)) ->
    exists t',
      for_each (seq s (length ps)) (Machine.loop_body P df) a t
      = Some (Machine.add_lists a
                (Machine.lists_of (Machine.median_of P df) (Machine.high_of P df) ps),
              t').
Proof.
  intros ps. induction ps as [|[c n] ps IH]; intros s a t Hps.
  - exists t. simpl. unfold ret. rewrite machine_add_lists_nil_r. reflexivity.
  - destruct (Hps 0%nat (c, n) eq_refl) as [Hc Hn]. simpl in Hc, Hn.
    rewrite Nat.add_0_r in Hc, Hn.
    destruct (machine_loop_body_step P df s c n a t Hc Hn) as [t1 H1].
    destruct (IH (S s) (Machine.add_lists a
                          (Machine.lists_of (Machine.median_of P df)
                             (Machine.high_of P df) [(c, n)])) t1) as [t2 H2].
    { intros j p Hj. specialize (Hps (S j) p Hj).
      replace (S s + j)%nat with (s + S j)%nat by lia. exact Hps. }
    exists t2. simpl. unfold bind at 1. rewrite H1. rewrite H2.
    rewrite machine_add_lists_assoc, <- machine_lists_of_cons. reflexivity.
Qed.

Lemma machine_pairs_lookup (df : Machine.Frame) j p :
  nth_error (Machine.adjacent_pairs df) j = Some p ->
  nth_error (Machine.series df) j = Some (fst p)
  /\ nth_error (Machine.series df) (j + 1) = Some (snd p).
Proof.
  unfold Machine.adjacent_pairs. intros H.
  apply nth_error_combine in H. destruct H as [H1 H2].
  rewrite nth_error_tl in H2. rewrite Nat.add_1_r. split; assumption.
Qed.


Lemma machine_length_pairs (df : Machine.Frame) :
  length (Machine.adjacent_pairs df) = (length df - 1)%nat.
Proof.
  unfold Machine.adjacent_pairs.
  rewrite length_combine_tl, machine_length_series. reflexivity.
Qed.

(** The detector returns, on every frame and from every trace. *)
Lemma machine_detect_runs (P : Machine.Pandas) (df : Machine.Frame) (t : Trace) :
  exists t',
    Machine.detect_priority_issues P df t = Some (Machine.expected_result P df, t').
Proof.
  unfold Machine.detect_priority_issues, bind.
  assert (Hrange : range (len df - 1) = seq 0 (length (Machine.adjacent_pairs df))).
  { unfold range, len. rewrite machine_length_pairs. f_equal. lia. }
  rewrite Hrange.
  destruct (machine_for_each_pairs P df (Machine.adjacent_pairs df) 0
              Machine.no_evidence t) as [t' H].
  { intros j p Hj. simpl. apply machine_pairs_lookup; assumption. }
  exists t'. rewrite H, machine_add_lists_nil_l. reflexivity.
Qed.

(** The cells of the row Series of one frame have one dtype. *)
Lemma machine_series_kind (df : Machine.Frame) (r : Machine.Row) :
  In r (Machine.series df) ->
  Machine.is_int (Machine.TableSize r) = Machine.is_int_frame df.
Proof.
  unfold Machine.series. rewrite in_map_iff. intros [r0 [<- Hin]].
  unfold Machine.as_series.
  destruct (Machine.is_int_frame df) eqn:E; [|reflexivity].
  unfold Machine.is_int_frame in E. rewrite forallb_forall in E.
  specialize (E r0 Hin). unfold Machine.int_row in E.
  rewrite !andb_true_iff in E. tauto.
Qed.

Lemma machine_in_pairs (df : Machine.Frame) (p : Machine.Row * Machine.Row) :
  In p (Machine.adjacent_pairs df) ->
  In (fst p) (Machine.series df) /\ In (snd p) (Machine.series df).
Proof.
  destruct p as [c n]. unfold Machine.adjacent_pairs. intros H. split.
  - apply (in_combine_l _ _ _ _ H).
  - apply in_combine_r in H.
    destruct (Machine.series df); [contradiction|right; exact H].
Qed.

Lemma machine_loop_body_pairwise (P : Machine.Pandas) (df : Machine.Frame) i
    current next_table a t :
  nth_error (Machine.series df) i = Some current ->
  nth_error (Machine.series df) (i + 1) = Some next_table ->
  exists a' t',
    Machine.loop_body P df i a t = Some (a', t')
    /\ Machine.large_blocking_small a'
       = Machine.large_blocking_small a
         ++ (if Machine.large_blocks_small current next_table
             then [Machine.pair_evidence current next_table] else [])
    /\ Machine.small_blocking_large a'
       = Machine.small_blocking_large a
         ++ (if Machine.small_blocks_large current next_table
             then [Machine.pair_evidence current next_table] else []).
Proof.
  intros Hc Hn.
  destruct (machine_loop_body_step P df i current next_table a t Hc Hn) as [t' H].
  eexists; exists t'. split; [exact H|].
  unfold Machine.add_lists, Machine.lists_of;
    cbn [Machine.large_blocking_small Machine.small_blocking_large
           filter map fst snd].
  destruct (Machine.large_blocks_small current next_table),
    (Machine.small_blocks_large current next_table); split; reflexivity.
Qed.

Lemma machine_pair_kind (df : Machine.Frame) i current next_table :
  nth_error (Machine.series df) i = Some current ->
  nth_error (Machine.series df) (i + 1) = Some next_table ->
  Machine.is_int (Machine.TableSize next_table)
  = Machine.is_int (Machine.TableSize current).
Proof.
  intros Hc Hn. apply nth_error_In in Hc, Hn.
  rewrite (machine_series_kind df _ Hc), (machine_series_kind df _ Hn).
  reflexivity.
Qed.

Lemma combine_tl_app {A} (l l' : list A) :
  exists more, combine (l ++ l') (tl (l ++ l')) = combine l (tl l) ++ more.
Proof.
  induction l as [|x [|y l] IH].
  - eexists; reflexivity.
  - eexists; reflexivity.
  - destruct IH as [more IH]. exists more.
    change ((x :: y :: l) ++ l') with (x :: (y :: l) ++ l').
    change (tl (x :: (y :: l) ++ l')) with ((y :: l) ++ l').
    change (combine (x :: (y :: l) ++ l') ((y :: l) ++ l'))
      with ((x, y) :: combine ((y :: l) ++ l') (tl ((y :: l) ++ l'))).
    rewrite IH. reflexivity.
Qed.

Lemma length_filter_mono {A} (p q : A -> bool) (l : list A) :
  (forall x, In x l -> p x = true -> q x = true) ->
  (length (filter p l) <= length (filter q l))%nat.
Proof.
  induction l as [|x l IH]; intros H; simpl; [lia|].
  assert (IH' := IH (fun y Hy => H y (or_intror Hy))).
  pose proof (H x (or_introl eq_refl)) as Hx.
  destruct (p x); [rewrite (Hx eq_refl); simpl; lia|].
  destruct (q x); simpl; lia.
Qed.

Lemma machine_series_app (df ext : Machine.Frame) :
  Machine.is_int_frame (df ++ ext) = Machine.is_int_frame df ->
  exists more, Machine.series (df ++ ext) = Machine.series df ++ more.
Proof.
  intros H. unfold Machine.series. rewrite map_app. eexists. f_equal.
  apply map_ext. intros r. unfold Machine.as_series. rewrite H. reflexivity.
Qed.

Lemma machine_pairs_app (df ext : Machine.Frame) :
  Machine.is_int_frame (df ++ ext) = Machine.is_int_frame df ->
  exists more,
    Machine.adjacent_pairs (df ++ ext) = Machine.adjacent_pairs df ++ more.
Proof.
  intros H. destruct (machine_series_app df ext H) as [rows E].
  unfold Machine.adjacent_pairs. rewrite E. apply combine_tl_app.
Qed.

End MachineArithmetic.

(** * The pairwise rules in machine arithmetic *)

Section MachineProperties.

Local Open Scope Z_scope.

(** Three checks of the arithmetic: 0.75 - 0.7 exceeds 0.05 in binary64, an
    integer above 2^53 is rounded when a row is converted to binary64, and
    5 * 10^18 doubled wraps around to a negative [int64]. *)
Example binary64_difference :
  SFltb Machine.PRIORITY_DIFFERENCE_THRESHOLD
    (SFsub Machine.prec Machine.emax (Machine.decimal 75 100) (Machine.decimal 70 100))
  = true.
Proof. reflexivity. Qed.

Example int64_to_binary64 :
  Machine.float_of_int (2 ^ 53 + 1) = Machine.float_of_int (2 ^ 53).
Proof. reflexivity. Qed.

Example int64_doubling :
  Machine.mul_int (Machine.I64 5000000000000000000) 2
  = Machine.I64 (-8446744073709551616).
Proof. reflexivity. Qed.


(** C6, as the code has it. For two adjacent rows whose table sizes are not
    negative and do not overflow when doubled, the two size rules never hold
    together, and the iteration of the loop on them leaves at least one of the
    two pairwise lists as it was, whatever the starvation and high-change
    rules do in the same iteration. *)
Theorem size_rules_exclusive_without_overflow
    (P : Machine.Pandas) (df : Machine.Frame) (i : nat)
    (current next_table : Machine.Row) (a : Machine.Lists) (t : Trace) :
  nth_error (Machine.series df) i = Some current ->
  nth_error (Machine.series df) (i + 1) = Some next_table ->
  Machine.nonneg (Machine.TableSize current) = true ->
  Machine.nonneg (Machine.TableSize next_table) = true ->
  Machine.doubles (Machine.TableSize current) = true ->
  Machine.doubles (Machine.TableSize next_table) = true ->
  Machine.large_blocks_small current next_table
  && Machine.small_blocks_large current next_table = false
  /\ exists a' t',
       Machine.loop_body P df i a t = Some (a', t')
       /\ (Machine.large_blocking_small a' = Machine.large_blocking_small a
           \/ Machine.small_blocking_large a' = Machine.small_blocking_large a).
Proof.
  intros Hc Hn _ _ Dc Dn.
  pose proof (machine_size_rules_exclusive current next_table
                (machine_pair_kind df i current next_table Hc Hn) Dc Dn) as Hx.
  split; [exact Hx|].
  destruct (machine_loop_body_pairwise P df i current next_table a t Hc Hn)
    as (a' & t' & Hrun & Hl & Hs).
  exists a', t'. split; [exact Hrun|].
  rewrite Hl, Hs.
  destruct (Machine.large_blocks_small current next_table); simpl in Hx.
  - right. rewrite Hx. apply app_nil_r.
  - left. apply app_nil_r.
Qed.

Lemma size_rules_exclusive_without_overflow_witness :
  Machine.large_blocks_small
    (Machine.as_series Machine.exclusive_frame (Machine.cells 1 1000 90 0 10))
    (Machine.as_series Machine.exclusive_frame (Machine.cells 2 10 50 0 10))
  && Machine.small_blocks_large
       (Machine.as_series Machine.exclusive_frame (Machine.cells 1 1000 90 0 10))
       (Machine.as_series Machine.exclusive_frame (Machine.cells 2 10 50 0 10))
  = false
  /\ exists a' t',
       Machine.loop_body Machine.numpy Machine.exclusive_frame 0
         Machine.no_evidence [] = Some (a', t')
       /\ (Machine.large_blocking_small a'
           = Machine.large_blocking_small Machine.no_evidence
           \/ Machine.small_blocking_large a'
              = Machine.small_blocking_large Machine.no_evidence).
Proof.
  apply (size_rules_exclusive_without_overflow Machine.numpy
           Machine.exclusive_frame 0); reflexivity.
Defined.

(** C6, as stated, fails on a frame of integers: the sizes 1 and 5 * 10^18
    are not negative, the product [5 * 10^18 * 2] wraps around to a negative
    number, and the detector puts the pair in both lists. *)
Lemma size_rules_both_fire_on_overflow :
  Machine.nonneg (Machine.TableSize (Machine.int_cells 1 1 1 0 0)) = true
  /\ Machine.nonneg
       (Machine.TableSize (Machine.int_cells 2 5000000000000000000 0 0 0)) = true
  /\ option_map (fun x => Machine.evidence (fst x))
       (Machine.detect_priority_issues Machine.numpy Machine.overflow_frame [])
     = Some (Machine.mkLists
               [(Machine.I64 1, Machine.I64 2, Machine.I64 1,
                 Machine.I64 5000000000000000000)]
               [(Machine.I64 1, Machine.I64 2, Machine.I64 1,
                 Machine.I64 5000000000000000000)]
               [] []).
Proof. split; [reflexivity|]. split; [reflexivity|]. vm_compute. reflexivity. Qed.

(** C7, as the code has it. For two adjacent rows whose table sizes are not
    negative and do not overflow when doubled, and whose current size equals
    twice the next one, neither size rule holds, whatever the priorities are,
    and the iteration of the loop on them leaves both pairwise lists as they
    were. *)
Theorem size_boundary_without_overflow
    (P : Machine.Pandas) (df : Machine.Frame) (i : nat)
    (current next_table : Machine.Row) (a : Machine.Lists) (t : Trace) :
  nth_error (Machine.series df) i = Some current ->
  nth_error (Machine.series df) (i + 1) = Some next_table ->
  Machine.nonneg (Machine.TableSize current) = true ->
  Machine.nonneg (Machine.TableSize next_table) = true ->
  Machine.doubles (Machine.TableSize current) = true ->
  Machine.doubles (Machine.TableSize next_table) = true ->
  Machine.eqb (Machine.TableSize current)
    (Machine.mul_int (Machine.TableSize next_table) 2) = true ->
  Machine.large_blocks_small current next_table = false
  /\ Machine.small_blocks_large current next_table = false
  /\ exists a' t',
       Machine.loop_body P df i a t = Some (a', t')
       /\ Machine.large_blocking_small a' = Machine.large_blocking_small a
       /\ Machine.small_blocking_large a' = Machine.small_blocking_large a.
Proof.
  intros Hc Hn _ _ Dc Dn E.
  destruct (machine_size_boundary_rules current next_table
              (machine_pair_kind df i current next_table Hc Hn) Dc Dn E)
    as [Hl Hs].
  split; [exact Hl|]. split; [exact Hs|].
  destruct (machine_loop_body_pairwise P df i current next_table a t Hc Hn)
    as (a' & t' & Hrun & Hl' & Hs').
  exists a', t'. split; [exact Hrun|].
  rewrite Hl', Hs', Hl, Hs, !app_nil_r. split; reflexivity.
Qed.

Lemma size_boundary_without_overflow_witness :
  Machine.large_blocks_small
    (Machine.as_series Machine.boundary_frame (Machine.cells 1 20 90 0 10))
    (Machine.as_series Machine.boundary_frame (Machine.cells 2 10 50 0 10))
  = false
  /\ Machine.small_blocks_large
       (Machine.as_series Machine.boundary_frame (Machine.cells 1 20 90 0 10))
       (Machine.as_series Machine.boundary_frame (Machine.cells 2 10 50 0 10))
     = false
  /\ exists a' t',
       Machine.loop_body Machine.numpy Machine.boundary_frame 0
         Machine.no_evidence [] = Some (a', t')
       /\ Machine.large_blocking_small a'
          = Machine.large_blocking_small Machine.no_evidence
       /\ Machine.small_blocking_large a'
          = Machine.small_blocking_large Machine.no_evidence.
Proof.
  apply (size_boundary_without_overflow Machine.numpy Machine.boundary_frame 0);
    reflexivity.
Defined.

(** C7, as stated, fails on a frame of integers: the sizes 2^62 and 2^61 are
    not negative and the first is exactly twice the second, but [2^62 * 2]
    wraps around to [-2^63], and the pair is reported as a small table
    blocking a large one. *)
Lemma size_boundary_fires_on_overflow :
  Machine.nonneg (Machine.I64 4611686018427387904) = true
  /\ Machine.nonneg (Machine.I64 2305843009213693952) = true
  /\ Machine.eqb (Machine.I64 4611686018427387904)
       (Machine.mul_int (Machine.I64 2305843009213693952)
          Machine.TABLE_SIZE_RATIO_THRESHOLD) = true
  /\ Machine.mul_int (Machine.I64 4611686018427387904)
       Machine.TABLE_SIZE_RATIO_THRESHOLD
     = Machine.I64 (-9223372036854775808)
  /\ option_map (fun x => Machine.evidence (fst x))
       (Machine.detect_priority_issues Machine.numpy Machine.boundary_overflow_frame [])
     = Some (Machine.mkLists []
               [(Machine.I64 1, Machine.I64 2, Machine.I64 4611686018427387904,
                 Machine.I64 2305843009213693952)]
               [] []).
Proof. repeat (split; [reflexivity|]). vm_compute. reflexivity. Qed.

(** C8, as the code has it. When records are appended to a frame and the rows
    keep their dtype, the two pairwise lists never get shorter; the starved
    list does not get shorter when the priority median does not drop, and the
    high-change list does not when, besides, the 0.75 quantile of the change
    ratio does not rise. *)
Theorem evidence_lengths_under_append_machine
    (P : Machine.Pandas) (df ext : Machine.Frame) (t t0 : Trace) :
  Machine.is_int_frame (df ++ ext) = Machine.is_int_frame df ->
  exists r r' t1 t2,
    Machine.detect_priority_issues P df t = Some (r, t1)
    /\ Machine.detect_priority_issues P (df ++ ext) t0 = Some (r', t2)
    /\ (length (Machine.large_blocking_small (Machine.evidence r))
        <= length (Machine.large_blocking_small (Machine.evidence r')))%nat
    /\ (length (Machine.small_blocking_large (Machine.evidence r))
        <= length (Machine.small_blocking_large (Machine.evidence r')))%nat
    /\ (SFleb (Machine.median_of P df) (Machine.median_of P (df ++ ext)) = true ->
        (length (Machine.starved_tables (Machine.evidence r))
         <= length (Machine.starved_tables (Machine.evidence r')))%nat)
    /\ (SFleb (Machine.median_of P df) (Machine.median_of P (df ++ ext)) = true ->
        SFleb (Machine.high_of P (df ++ ext)) (Machine.high_of P df) = true ->
        (length (Machine.high_change_low_priority (Machine.evidence r))
         <= length (Machine.high_change_low_priority (Machine.evidence r')))%nat).
Proof.
  intros Hd.
  destruct (machine_detect_runs P df t) as [t1 H1].
  destruct (machine_detect_runs P (df ++ ext) t0) as [t2 H2].
  exists (Machine.expected_result P df), (Machine.expected_result P (df ++ ext)), t1, t2.
  split; [exact H1|]. split; [exact H2|].
  destruct (machine_pairs_app df ext Hd) as [more E].
  cbn [Machine.expected_result Machine.evidence]. unfold Machine.scan_lists.
  rewrite E, machine_lists_of_app.
  unfold Machine.add_lists, Machine.lists_of;
    cbn [Machine.large_blocking_small Machine.small_blocking_large
           Machine.starved_tables Machine.high_change_low_priority].
  rewrite !length_app, !length_map.
  split; [lia|]. split; [lia|]. split.
  - intros Hm.
    pose proof (length_filter_mono
                  (Machine.is_starved (Machine.median_of P df))
                  (Machine.is_starved (Machine.median_of P (df ++ ext)))
                  (map fst (Machine.adjacent_pairs df))) as Hmono.
    assert (Hle : (length (filter (Machine.is_starved (Machine.median_of P df))
                             (map fst (Machine.adjacent_pairs df)))
                   <= length (filter (Machine.is_starved
                                        (Machine.median_of P (df ++ ext)))
                                (map fst (Machine.adjacent_pairs df))))%nat).
    { apply Hmono. intros x _. unfold Machine.is_starved, Machine.lt_float.
      rewrite !andb_true_iff. intros [Ho Hlt]. split; [exact Ho|].
      exact (SFltb_leb_trans _ _ _ Hlt Hm). }
    lia.
  - intros Hm Hh.
    pose proof (length_filter_mono
                  (Machine.is_high_change (Machine.high_of P df)
                     (Machine.median_of P df))
                  (Machine.is_high_change (Machine.high_of P (df ++ ext))
                     (Machine.median_of P (df ++ ext)))
                  (map fst (Machine.adjacent_pairs df))) as Hmono.
    assert (Hle : (length (filter (Machine.is_high_change (Machine.high_of P df)
                                     (Machine.median_of P df))
                             (map fst (Machine.adjacent_pairs df)))
                   <= length (filter (Machine.is_high_change
                                        (Machine.high_of P (df ++ ext))
                                        (Machine.median_of P (df ++ ext)))
                                (map fst (Machine.adjacent_pairs df))))%nat).
    { apply Hmono. intros x _.
      unfold Machine.is_high_change, Machine.lt_float, Machine.gt_float.
      rewrite !andb_true_iff. intros [Hgt Hlt]. split.
      - exact (SFleb_ltb_trans _ _ _ Hh Hgt).
      - exact (SFltb_leb_trans _ _ _ Hlt Hm). }
    lia.
Qed.

Lemma evidence_lengths_under_append_machine_witness :
  Machine.is_int_frame (Machine.steady_frame ++ Machine.steady_rows)
  = Machine.is_int_frame Machine.steady_frame
  /\ SFleb (Machine.median_of Machine.numpy Machine.steady_frame)
       (Machine.median_of Machine.numpy (Machine.steady_frame ++ Machine.steady_rows))
     = true
  /\ SFleb (Machine.high_of Machine.numpy (Machine.steady_frame ++ Machine.steady_rows))
       (Machine.high_of Machine.numpy Machine.steady_frame)
     = true
  /\ exists r r' t1 t2,
       Machine.detect_priority_issues Machine.numpy Machine.steady_frame []
       = Some (r, t1)
       /\ Machine.detect_priority_issues Machine.numpy
            (Machine.steady_frame ++ Machine.steady_rows) [] = Some (r', t2)
       /\ (length (Machine.large_blocking_small (Machine.evidence r))
           <= length (Machine.large_blocking_small (Machine.evidence r')))%nat
       /\ (length (Machine.small_blocking_large (Machine.evidence r))
           <= length (Machine.small_blocking_large (Machine.evidence r')))%nat
       /\ (length (Machine.starved_tables (Machine.evidence r))
           <= length (Machine.starved_tables (Machine.evidence r')))%nat
       /\ (length (Machine.high_change_low_priority (Machine.evidence r))
           <= length (Machine.high_change_low_priority (Machine.evidence r')))%nat.
Proof.
  assert (Hd : Machine.is_int_frame (Machine.steady_frame ++ Machine.steady_rows)
               = Machine.is_int_frame Machine.steady_frame) by reflexivity.
  assert (Hm : SFleb (Machine.median_of Machine.numpy Machine.steady_frame)
                 (Machine.median_of Machine.numpy
                    (Machine.steady_frame ++ Machine.steady_rows)) = true)
    by (vm_compute; reflexivity).
  assert (Hh : SFleb (Machine.high_of Machine.numpy
                        (Machine.steady_frame ++ Machine.steady_rows))
                 (Machine.high_of Machine.numpy Machine.steady_frame) = true)
    by (vm_compute; reflexivity).
  split; [exact Hd|]. split; [exact Hm|]. split; [exact Hh|].
  destruct (evidence_lengths_under_append_machine Machine.numpy
              Machine.steady_frame Machine.steady_rows [] [] Hd)
    as (r & r' & t1 & t2 & H1 & H2 & Hl & Hs & Hst & Hhc).
  exists r, r', t1, t2.
  repeat split; auto.
Defined.

(** C8, as stated, fails in two ways. In [shrink_frame] the priority median
    is 0.6, three records are starved and one has a high change ratio and a
    low priority; appending two overdue records of low priority, which both
    satisfy the starvation rule in the extended frame, moves the median to
    0.4, and one starved record and no high-change record are left. And in
    the frame of integers [overflow_frame], where a wrapped product puts the
    pair in [large_blocking_small], appending a record with a decimal priority
    turns every row into binary64 numbers, and the list becomes empty. *)
Lemma evidence_lists_shrink_under_append :
  Machine.evidence_lengths
    (Machine.detect_priority_issues Machine.numpy Machine.shrink_frame [])
  = Some (0, 0, 3, 1)%nat
  /\ Machine.evidence_lengths
       (Machine.detect_priority_issues Machine.numpy
          (Machine.shrink_frame ++ Machine.shrink_rows) [])
     = Some (0, 0, 1, 0)%nat
  /\ forallb (fun r => Machine.is_starved
                         (Machine.median_of Machine.numpy
                            (Machine.shrink_frame ++ Machine.shrink_rows))
                         (Machine.as_series
                            (Machine.shrink_frame ++ Machine.shrink_rows) r))
       Machine.shrink_rows = true
  /\ Machine.evidence_lengths
       (Machine.detect_priority_issues Machine.numpy Machine.overflow_frame [])
     = Some (1, 1, 0, 0)%nat
  /\ Machine.evidence_lengths
       (Machine.detect_priority_issues Machine.numpy
          (Machine.overflow_frame ++ [Machine.cells 3 7 50 0 10]) [])
     = Some (0, 1, 0, 0)%nat.
Proof. repeat (split; [vm_compute; reflexivity|]). vm_compute. reflexivity. Qed.


(** X5. On a frame whose table sizes are not negative and do not overflow
    when doubled, no pair of adjacent rows is reported in both pairwise lists:
    the two lists share no entry, and together they hold at most N - 1
    entries. *)
Theorem pairwise_lists_disjoint_without_overflow
    (P : Machine.Pandas) (df : Machine.Frame) (t : Trace) :
  (forall r, In r (Machine.series df) ->
             Machine.nonneg (Machine.TableSize r) = true
             /\ Machine.doubles (Machine.TableSize r) = true) ->
  exists r t',
    Machine.detect_priority_issues P df t = Some (r, t')
    /\ (forall e, In e (Machine.large_blocking_small (Machine.evidence r)) ->
                  In e (Machine.small_blocking_large (Machine.evidence r)) -> False)
    /\ (length (Machine.large_blocking_small (Machine.evidence r))
        + length (Machine.small_blocking_large (Machine.evidence r))
        <= length df - 1)%nat.
Proof.
  intros Hsafe.
  destruct (machine_detect_runs P df t) as [t' H].
  exists (Machine.expected_result P df), t'. split; [exact H|].
  cbn [Machine.expected_result Machine.evidence].
  unfold Machine.scan_lists, Machine.lists_of.
  cbn [Machine.large_blocking_small Machine.small_blocking_large]. split.
  - intros e Hl Hs.
    apply in_map_iff in Hl. destruct Hl as [[c n] [El Hl]].
    apply in_map_iff in Hs. destruct Hs as [[c' n'] [Es Hs]].
    apply filter_In in Hl. destruct Hl as [Hin Hl].
    apply filter_In in Hs. destruct Hs as [Hin' Hs].
    simpl in *. subst e. unfold Machine.pair_evidence in Es.
    injection Es as _ _ Ec En.
    destruct (machine_in_pairs df _ Hin) as [Hc Hn]. simpl in Hc, Hn.
    assert (Hk : Machine.is_int (Machine.TableSize n)
                 = Machine.is_int (Machine.TableSize c))
      by (rewrite (machine_series_kind df _ Hc), (machine_series_kind df _ Hn);
          reflexivity).
    unfold Machine.large_blocks_small in Hl.
    unfold Machine.small_blocks_large in Hs.
    apply andb_true_iff in Hl, Hs. destruct Hl as [Hl _], Hs as [Hs _].
    rewrite Ec, En in Hs. unfold Machine.gtb in Hl.
    pose proof (proj2 (Hsafe c Hc)) as Dc. pose proof (proj2 (Hsafe n Hn)) as Dn.
    unfold Machine.doubles in Dc, Dn.
    eapply machine_chain_false;
      [exact Hk|apply machine_mul_int_kind|apply machine_mul_int_kind
       |exact Dn|exact Hl|exact Dc|exact Hs].
  - rewrite !length_map, <- machine_length_pairs.
    apply length_exclusive_filters. intros [c n] Hin. simpl.
    destruct (machine_in_pairs df _ Hin) as [Hc Hn]. simpl in Hc, Hn.
    apply machine_size_rules_exclusive.
    + rewrite (machine_series_kind df _ Hc), (machine_series_kind df _ Hn).
      reflexivity.
    + exact (proj2 (Hsafe c Hc)).
    + exact (proj2 (Hsafe n Hn)).
Qed.

Lemma pairwise_lists_disjoint_without_overflow_witness :
  exists r t',
    Machine.detect_priority_issues Machine.numpy Machine.exclusive_frame []
    = Some (r, t')
    /\ (forall e, In e (Machine.large_blocking_small (Machine.evidence r)) ->
                  In e (Machine.small_blocking_large (Machine.evidence r)) -> False)
    /\ (length (Machine.large_blocking_small (Machine.evidence r))
        + length (Machine.small_blocking_large (Machine.evidence r))
        <= length Machine.exclusive_frame - 1)%nat.
Proof.
  apply (pairwise_lists_disjoint_without_overflow Machine.numpy
           Machine.exclusive_frame []).
  intros r Hin. vm_compute in Hin.
  repeat (destruct Hin as [<-|Hin]; [split; reflexivity|]).
  contradiction.
Defined.

End MachineProperties.
